(** * p5.opengl.shader: GLSL source preprocessing and shader objects

    A shallow embedding of [src/p5/opengl/shader.py].

    - A Python [str] is a list of Unicode code points ([list N]).
    - A Python exception is a value of [exn]; a call that may raise
      returns a [result].
    - Methods that mutate an object and talk to OpenGL are functions from
      the state before the call to the state after it paired with the
      outcome, so that what a raising call leaves behind is visible. *)

From Stdlib Require Import String Ascii QArith DecimalPos.
From stdpp Require Import base option list gmap.

Local Open Scope N_scope.

(** ** Strings *)

Abbreviation str := (list N).

(** A literal of the source, as code points. *)
Fixpoint py (s : string) : str :=
  match s with
  | EmptyString => []
  | String a s' => N_of_ascii a :: py s'
  end.

(** The line feed ['\n']. *)
Definition LF : N := 10.

Fixpoint starts_with (prefix s : str) : bool :=
  match prefix, s with
  | [], _ => true
  | _ :: _, [] => false
  | a :: prefix', b :: s' => (a =? b) && starts_with prefix' s'
  end.

(** [needle in hay]. *)
Fixpoint contains (needle hay : str) : bool :=
  starts_with needle hay ||
  match hay with
  | [] => false
  | _ :: hay' => contains needle hay'
  end.

(** [s.split(sep)] for a separator of one character: the pieces between
    the separators, the empty ones too; never an empty list. *)
Fixpoint split (sep : N) (s : str) : list str :=
  match s with
  | [] => [[]]
  | c :: s' =>
      if c =? sep then [] :: split sep s'
      else match split sep s' with
           | piece :: pieces => (c :: piece) :: pieces
           | [] => [[c]]
           end
  end.

(** [sep.join(pieces)]. *)
Fixpoint join (sep : str) (pieces : list str) : str :=
  match pieces with
  | [] => []
  | [piece] => piece
  | piece :: pieces' => piece ++ sep ++ join sep pieces'
  end.

Definition digit_char (d : N) : N := 48 + d.

Fixpoint uint_chars (u : Decimal.uint) : str :=
  match u with
  | Decimal.Nil => []
  | Decimal.D0 u' => digit_char 0 :: uint_chars u'
  | Decimal.D1 u' => digit_char 1 :: uint_chars u'
  | Decimal.D2 u' => digit_char 2 :: uint_chars u'
  | Decimal.D3 u' => digit_char 3 :: uint_chars u'
  | Decimal.D4 u' => digit_char 4 :: uint_chars u'
  | Decimal.D5 u' => digit_char 5 :: uint_chars u'
  | Decimal.D6 u' => digit_char 6 :: uint_chars u'
  | Decimal.D7 u' => digit_char 7 :: uint_chars u'
  | Decimal.D8 u' => digit_char 8 :: uint_chars u'
  | Decimal.D9 u' => digit_char 9 :: uint_chars u'
  end.

(** ["{}".format(z)] for an [int]: decimal digits, a minus sign before a
    negative number. *)
Definition format_int (z : Z) : str :=
  match z with
  | Z0 => py "0"
  | Zpos p => uint_chars (Pos.to_uint p)
  | Zneg p => py "-" ++ uint_chars (Pos.to_uint p)
  end.

(** ** Exceptions

    The exception classes the module raises or lets through.  A missing
    key of a dict ([GLSL_VERSIONS], [_supported_shader_types],
    [_uniform_function_map], the uniforms of a program) is a [KeyError]
    on that key; a shader type that cannot be preprocessed is a
    [TypeError]; a shader without a handle is a [NameError].  The others
    come from [str.encode], [bytes.decode] and ctypes. *)

Inductive exn : Type :=
  | KeyError (key : str)
  | TypeError (msg : str)
  | NameError (msg : str)
  | IndexError (msg : str)
  | UnicodeEncodeError
  | UnicodeDecodeError
  | ValueError
  | ArgumentError.

Inductive result (A : Type) : Type :=
  | Ok (a : A)
  | Raise (e : exn).
Arguments Ok {A} a.
Arguments Raise {A} e.

(** ** The two regular expressions of [preprocess_shader]

    [re_id = "(?<![0-9A-Z_a-z])({})(?![0-9A-Z_a-z]|\\s*\\()"] and
    [re_fn = "(?<![0-9A-Z_a-z])({})(?=\\s*\\()"], with the search text
    formatted into the group.  Every search text of the source is a list
    of identifiers separated by [|], so the group is an ordered choice
    between literal words. *)

Inductive regex : Type := re_id | re_fn.

(** The class [[0-9A-Z_a-z]]. *)
Definition is_word (c : N) : bool :=
  ((48 <=? c) && (c <=? 57)) || ((65 <=? c) && (c <=? 90)) ||
  (c =? 95) || ((97 <=? c) && (c <=? 122)).

(** [\s] of a [str] pattern: the characters for which [str.isspace]
    holds. *)
Definition is_space (c : N) : bool :=
  ((9 <=? c) && (c <=? 13)) || ((28 <=? c) && (c <=? 32)) ||
  (c =? 133) || (c =? 160) || (c =? 5760) ||
  ((8192 <=? c) && (c <=? 8202)) || (c =? 8232) || (c =? 8233) ||
  (c =? 8239) || (c =? 8287) || (c =? 12288).

(** [\s*\(] matches at the start of [s]. *)
Fixpoint call_follows (s : str) : bool :=
  match s with
  | [] => false
  | c :: s' => (c =? 40) || (is_space c && call_follows s')
  end.

Definition word_follows (s : str) : bool :=
  match s with
  | [] => false
  | c :: _ => is_word c
  end.

(** The lookbehind [(?<![0-9A-Z_a-z])], on the character before the
    position ([None] at the start of the string). *)
Definition lookbehind (prev : option N) : bool :=
  match prev with
  | None => true
  | Some c => negb (is_word c)
  end.

(** The lookahead that closes each expression, on the text after the
    group. *)
Definition lookahead (re : regex) (rest : str) : bool :=
  match re with
  | re_id => negb (word_follows rest || call_follows rest)
  | re_fn => call_follows rest
  end.

(** The alternatives of a search text such as ["varying|attribute"]. *)
Definition alternatives (search : str) : list str := split 124 search.

(** The first alternative that matches at the start of [s], in the order
    of the search text, as the backtracking matcher finds it.  Empty
    alternatives are passed over: no search text of the source has one. *)
Fixpoint first_alternative (re : regex) (alts : list str) (s : str)
  : option str :=
  match alts with
  | [] => None
  | alt :: alts' =>
      if negb (bool_decide (alt = [])) && starts_with alt s
         && lookahead re (drop (length alt) s)
      then Some alt
      else first_alternative re alts' s
  end.

Definition match_here (re : regex) (search : str) (prev : option N) (s : str)
  : option str :=
  if lookbehind prev then first_alternative re (alternatives search) s
  else None.

(** What a left-to-right scan makes of a line: characters outside every
    match, and the matches. *)
Inductive piece : Type :=
  | Keep (c : N)
  | Hit (matched : str).

(** The non-overlapping matches of the expression in [s], leftmost first.
    [skip] counts the characters of the current match still to pass;
    [prev] is the character before [s] in the whole line. *)
Fixpoint scan (re : regex) (search : str) (prev : option N) (skip : nat)
    (s : str) : list piece :=
  match s with
  | [] => []
  | c :: s' =>
      match skip with
      | S skip' => scan re search (Some c) skip' s'
      | O =>
          match match_here re search prev s with
          | Some alt =>
              Hit alt :: scan re search (Some c) (pred (length alt)) s'
          | None => Keep c :: scan re search (Some c) O s'
          end
      end
  end.

Definition original (p : piece) : str :=
  match p with
  | Keep c => [c]
  | Hit matched => matched
  end.

Definition replaced (replace : str) (p : piece) : str :=
  match p with
  | Keep c => [c]
  | Hit _ => replace
  end.

(** [re.sub(regex.format(search), replace, line)].  No replacement text
    of the source has a backslash, so each is inserted as it is. *)
Definition re_sub (re : regex) (search replace line : str) : str :=
  concat (map (replaced replace) (scan re search None O line)).

Definition is_hit (p : piece) : bool :=
  match p with
  | Hit _ => true
  | Keep _ => false
  end.

(** [re.search(regex.format(search), line) is not None]. *)
Definition re_matches (re : regex) (search line : str) : bool :=
  existsb is_hit (scan re search None O line).

(** ** The preprocessor *)

Definition GLSL_VERSIONS : gmap str Z :=
  list_to_map
    [ (py "2.0", 110%Z); (py "2.1", 120%Z); (py "3.0", 130%Z);
      (py "3.1", 140%Z); (py "3.2", 150%Z); (py "3.3", 330%Z);
      (py "4.0", 400%Z); (py "4.1", 410%Z); (py "4.2", 420%Z);
      (py "4.3", 430%Z); (py "4.4", 440%Z); (py "4.5", 450%Z) ].

Definition pattern : Type := regex * str * str.

Definition vertex_patterns : list pattern :=
  [ (re_id, py "varying", py "out");
    (re_id, py "attribute", py "in");
    (re_id, py "texture", py "texMap");
    (re_fn, py "texture2DRect|texture2D|texture3D|textureCube", py "texture") ].

Definition fragment_patterns : list pattern :=
  [ (re_id, py "varying|attribute", py "in");
    (re_id, py "texture", py "texMap");
    (re_fn, py "texture2DRect|texture2D|texture3D|textureCube", py "texture");
    (re_id, py "gl_FragColor", py "_fragColor") ].

(** The inner loop: every pattern in turn, each on the result of the one
    before it. *)
Definition rewrite_line (patterns : list pattern) (line : str) : str :=
  fold_left (fun new_line '(re, search, replace) =>
               re_sub re search replace new_line)
            patterns line.

(** The outer loop: each rewritten line, and a line feed after it, added
    to what was produced so far. *)
Definition rewrite_lines (patterns : list pattern) (processed_shader : str)
    (lines : list str) : str :=
  fold_left (fun acc line => acc ++ (rewrite_line patterns line ++ [LF]))
            lines processed_shader.

Definition preprocess_shader (shader_source shader_type open_gl_version : str)
  : result str :=
  match GLSL_VERSIONS !! open_gl_version with
  | None => Raise (KeyError open_gl_version)
  | Some target_glsl_version =>
      if contains (py "#version") shader_source then Ok shader_source
      else
        let processed_shader :=
          py "#version " ++ format_int target_glsl_version ++ [LF] in
        if (target_glsl_version <? 130)%Z
        then Ok (processed_shader ++ shader_source)
        else if bool_decide (shader_type = py "vertex") then
          Ok (rewrite_lines vertex_patterns processed_shader
                            (split LF shader_source))
        else if bool_decide (shader_type = py "fragment") then
          Ok (rewrite_lines fragment_patterns
                (processed_shader ++ py "out vec4 _fragColor;")
                (split LF shader_source))
        else
          Raise (TypeError (py "Cannot preprocess " ++ shader_type
                            ++ py " shader."))
  end.

(** ** What the methods run against

    The module calls OpenGL through pyglet and prints to the standard
    output.  The calls made so far are kept in order; what a call returns
    is up to the driver, which may look at every call made before it, and
    so are the bytes it writes into a buffer it is handed, of which no
    more arrive than the buffer holds.  How surplus arguments of a call
    are treated is up to the binding: ctypes lets them through to a
    function of the C calling convention when it can convert them without
    a declared type, and refuses them for any other function. *)

Section Runtime.

(** The values handed over as uniform data, and the zero that ctypes
    fills an array with. *)
Context {GLfloat : Type} (zero : GLfloat).

Inductive gl_call : Type :=
  | glCreateShader (shader_type : Z)
  | glShaderSource (shader count : Z) (source : list N)
  | glCompileShader (shader : Z)
  | glGetShaderiv (shader pname : Z)
  | glGetShaderInfoLog (shader bufSize : Z)
  | glCreateProgram
  | glGetUniformLocation (program : Z) (name : list N)
  | glUniform4f (location : Z) (v0 v1 v2 v3 : GLfloat)
  | glUniformMatrix4fv (location count transpose : Z) (value : list GLfloat)
  | glAttachShader (program shader : Z)
  | glLinkProgram (program : Z)
  | glUseProgram (program : Z).

Record driver : Type := {
  (** the integer a call returns or writes through its pointer argument *)
  answer : list gl_call -> gl_call -> Z;
  (** the bytes [glGetShaderInfoLog] writes into the buffer *)
  info_log : list gl_call -> Z -> list N;
  (** the functions are linked with the C calling convention *)
  cdecl : bool;
  (** ctypes can pass the value where no type is declared *)
  passes_untyped : GLfloat -> bool;
}.

Record world : Type := {
  gl_calls : list gl_call;
  stdout : list str;
}.

Context (drv : driver).

(** A method of an object of type [O]: from the object and the world
    before the call to the object and the world after it, and what the
    call returned or raised.  An exception undoes nothing. *)
Definition M (O A : Type) : Type := O * world -> (O * world) * result A.

Definition ret {O A} (a : A) : M O A := fun st => (st, Ok a).

Definition raise {O A} (e : exn) : M O A := fun st => (st, Raise e).

Definition bind {O A B} (m : M O A) (k : A -> M O B) : M O B :=
  fun st =>
    match m st with
    | (st', Ok a) => k a st'
    | (st', Raise e) => (st', Raise e)
    end.

Notation "x <- m ;; k" := (bind m (fun x => k))
  (at level 100, m at next level, right associativity).
Notation "m ;;; k" := (bind m (fun _ => k))
  (at level 100, right associativity).

Definition self {O} : M O O := fun st => (st, Ok (fst st)).

Definition set_self {O} (o : O) : M O unit := fun st => ((o, snd st), Ok tt).

Definition lift {O A} (r : result A) : M O A := fun st => (st, r).

(** [d[key]] on a dict. *)
Definition getitem {V} (d : gmap str V) (key : str) : result V :=
  match d !! key with
  | Some v => Ok v
  | None => Raise (KeyError key)
  end.

(** A call into OpenGL: recorded, and answered by the driver. *)
Definition gl {O} (c : gl_call) : M O Z :=
  fun '(o, w) =>
    ((o, {| gl_calls := gl_calls w ++ [c]; stdout := stdout w |}),
     Ok (answer drv (gl_calls w) c)).

(** The bytes before the first NUL: what C reads of a [c_char_p], and
    the [value] of a character buffer. *)
Fixpoint until_nul (bytes : list N) : list N :=
  match bytes with
  | [] => []
  | b :: bytes' => if b =? 0 then [] else b :: until_nul bytes'
  end.

(** [create_string_buffer(size)]: [size] bytes, all zero; a negative size
    is refused. *)
Definition create_string_buffer (size : Z) : result (list N) :=
  if (size <? 0)%Z then Raise ValueError
  else Ok (replicate (Z.to_nat size) 0).

(** A buffer after [written] was written at its start; what does not fit
    does not arrive. *)
Definition written_into (buffer written : list N) : list N :=
  take (length buffer) written ++ drop (length written) buffer.

(** [glGetShaderInfoLog(shader, bufSize, None, buffer)]: recorded, and
    the buffer as the driver leaves it. *)
Definition gl_info_log {O} (shader bufSize : Z) (buffer : list N)
  : M O (list N) :=
  fun '(o, w) =>
    ((o, {| gl_calls := gl_calls w ++ [glGetShaderInfoLog shader bufSize];
            stdout := stdout w |}),
     Ok (written_into buffer (info_log drv (gl_calls w) shader))).

Definition print {O} (s : str) : M O unit :=
  fun '(o, w) =>
    ((o, {| gl_calls := gl_calls w; stdout := stdout w ++ [s] |}), Ok tt).

(** [s.encode('utf-8')]: a surrogate cannot be encoded. *)
Definition encode_char (c : N) : option (list N) :=
  if c <? 128 then Some [c]
  else if c <? 2048 then Some [192 + c / 64; 128 + c mod 64]
  else if c <? 65536 then
    if (55296 <=? c) && (c <=? 57343) then None
    else Some [224 + c / 4096; 128 + (c / 64) mod 64; 128 + c mod 64]
  else if c <? 1114112 then
    Some [240 + c / 262144; 128 + (c / 4096) mod 64;
          128 + (c / 64) mod 64; 128 + c mod 64]
  else None.

Fixpoint encode (s : str) : result (list N) :=
  match s with
  | [] => Ok []
  | c :: s' =>
      match encode_char c, encode s' with
      | Some bytes, Ok rest => Ok (bytes ++ rest)
      | _, _ => Raise UnicodeEncodeError
      end
  end.

(** [b.decode('utf-8')]: the well-formed sequences of one to four bytes,
    and nothing else. *)
Definition continuation (b : N) : bool := (128 <=? b) && (b <=? 191).

Definition decoded (c : N) (rest : result str) : result str :=
  match rest with
  | Ok s => Ok (c :: s)
  | Raise e => Raise e
  end.

Fixpoint decode (bytes : list N) : result str :=
  match bytes with
  | [] => Ok []
  | b0 :: rest =>
      if b0 <? 128 then decoded b0 (decode rest)
      else if (194 <=? b0) && (b0 <=? 223) then
        match rest with
        | b1 :: rest1 =>
            if continuation b1
            then decoded ((b0 - 192) * 64 + (b1 - 128)) (decode rest1)
            else Raise UnicodeDecodeError
        | _ => Raise UnicodeDecodeError
        end
      else if (224 <=? b0) && (b0 <=? 239) then
        match rest with
        | b1 :: b2 :: rest2 =>
            if continuation b1 && continuation b2
               && negb ((b0 =? 224) && (b1 <? 160))
               && negb ((b0 =? 237) && (159 <? b1))
            then decoded ((b0 - 224) * 4096 + (b1 - 128) * 64 + (b2 - 128))
                         (decode rest2)
            else Raise UnicodeDecodeError
        | _ => Raise UnicodeDecodeError
        end
      else if (240 <=? b0) && (b0 <=? 244) then
        match rest with
        | b1 :: b2 :: b3 :: rest3 =>
            if continuation b1 && continuation b2 && continuation b3
               && negb ((b0 =? 240) && (b1 <? 144))
               && negb ((b0 =? 244) && (143 <? b1))
            then decoded ((b0 - 240) * 262144 + (b1 - 128) * 4096
                          + (b2 - 128) * 64 + (b3 - 128))
                         (decode rest3)
            else Raise UnicodeDecodeError
        | _ => Raise UnicodeDecodeError
        end
      else Raise UnicodeDecodeError
  end.

(** ** Shader *)

Definition debug : bool := true.

Definition GL_FALSE : Z := 0.
Definition GL_FRAGMENT_SHADER : Z := 35632.
Definition GL_VERTEX_SHADER : Z := 35633.
Definition GL_COMPILE_STATUS : Z := 35713.
Definition GL_INFO_LOG_LENGTH : Z := 35716.

Record Shader : Type := {
  kind : str;
  _id : option Z;
  source : str;
}.

Definition _supported_shader_types : gmap str Z :=
  list_to_map
    [ (py "vertex", GL_VERTEX_SHADER); (py "fragment", GL_FRAGMENT_SHADER) ].

(** [Shader(source, kind, version, preprocess)]; the defaults of the
    last two are ['2.0'] and [True]. *)
Definition Shader_init (source kind version : str) (preprocess : bool)
  : result Shader :=
  if preprocess then
    match preprocess_shader source kind version with
    | Ok processed => Ok {| kind := kind; _id := None; source := processed |}
    | Raise e => Raise e
    end
  else Ok {| kind := kind; _id := None; source := source |}.

Definition compile : M Shader unit :=
  this <- self ;;
  shader_type <- lift (getitem _supported_shader_types (kind this)) ;;
  id <- gl (glCreateShader shader_type) ;;
  set_self {| kind := kind this; _id := Some id; source := source this |} ;;;
  src <- lift (encode (source this)) ;;
  gl (glShaderSource id 1 (until_nul src)) ;;;
  gl (glCompileShader id) ;;;
  if debug then
    status_code <- gl (glGetShaderiv id GL_COMPILE_STATUS) ;;
    log_size <- gl (glGetShaderiv id GL_INFO_LOG_LENGTH) ;;
    log_message <- lift (create_string_buffer log_size) ;;
    log_message <- gl_info_log id log_size log_message ;;
    log_message <- lift (decode (until_nul log_message)) ;;
    if (0 <? length log_message)%nat then
      print (source this) ;;;
      print log_message
    else ret tt
  else ret tt.

(** The property [sid].  [if self._id] is false for [None] and for [0]. *)
Definition sid (this : Shader) : result Z :=
  match _id this with
  | Some id =>
      if (id =? 0)%Z then Raise (NameError (py "Shader hasn't been created yet."))
      else Ok id
  | None => Raise (NameError (py "Shader hasn't been created yet."))
  end.

(** ** ShaderProgram *)

(** The values of [_uniform_function_map]. *)
Inductive uniform_function : Type := _uvec4 | _umat4.

Definition _uniform_function_map : gmap str uniform_function :=
  list_to_map [ (py "vec4", _uvec4); (py "mat4", _umat4) ].

Record ShaderUniform : Type := {
  name : str;
  uid : Z;
  function : uniform_function;
}.

Record ShaderProgram : Type := {
  pid : Z;
  _uniforms : gmap str ShaderUniform;
}.

(** [_uvec4(uniform, data)] and [_umat4(uniform, matrix)].  The first
    passes the items of [data] as arguments to a function declared with
    four after the location: too few are refused; surplus ones are
    refused unless the function has the C calling convention, which lets
    them through if ctypes can convert each of them, and the function
    does not look at them.  The second copies the items into an array of
    sixteen, which too many items overflow and too few leave at zero. *)
Definition call_uniform_function {O} (f : uniform_function) (uniform : Z)
    (data : list GLfloat) : M O unit :=
  match f with
  | _uvec4 =>
      match data with
      | [v0; v1; v2; v3] => gl (glUniform4f uniform v0 v1 v2 v3) ;;; ret tt
      | v0 :: v1 :: v2 :: v3 :: surplus =>
          if cdecl drv then
            if forallb (passes_untyped drv) surplus
            then gl (glUniform4f uniform v0 v1 v2 v3) ;;; ret tt
            else raise ArgumentError
          else
            raise (TypeError (py "this function takes 5 arguments ("
                              ++ format_int (Z.of_nat (S (length data)))
                              ++ py " given)"))
      | _ =>
          raise (TypeError (py "this function takes "
                            ++ (if cdecl drv then py "at least " else [])
                            ++ py "5 arguments ("
                            ++ format_int (Z.of_nat (S (length data)))
                            ++ py " given)"))
      end
  | _umat4 =>
      let flattened := data in
      if (16 <? length flattened)%nat then raise (IndexError (py "invalid index"))
      else
        gl (glUniformMatrix4fv uniform 1 GL_FALSE
              (flattened ++ replicate (16 - length flattened) zero)) ;;;
        ret tt
  end.

(** [ShaderProgram()]. *)
Definition ShaderProgram_init (w : world) : ShaderProgram * world :=
  ({| pid := answer drv (gl_calls w) glCreateProgram; _uniforms := ∅ |},
   {| gl_calls := gl_calls w ++ [glCreateProgram]; stdout := stdout w |}).

Definition add_uniform (uniform_name dtype : str) : M ShaderProgram unit :=
  uniform_function <- lift (getitem _uniform_function_map dtype) ;;
  this <- self ;;
  encoded <- lift (encode uniform_name) ;;
  location <- gl (glGetUniformLocation (pid this) encoded) ;;
  set_self {| pid := pid this;
              _uniforms :=
                <[uniform_name :=
                    {| name := uniform_name; uid := location;
                       function := uniform_function |}]> (_uniforms this) |}.

Definition update_uniform (uniform_name : str) (data : list GLfloat)
  : M ShaderProgram unit :=
  this <- self ;;
  uniform <- lift (getitem (_uniforms this) uniform_name) ;;
  call_uniform_function (function uniform) (uid uniform) data.

Definition attach (shader : Shader) : M ShaderProgram unit :=
  this <- self ;;
  shader_id <- lift (sid shader) ;;
  gl (glAttachShader (pid this) shader_id) ;;; ret tt.

(** ** Sequences of calls on one shader *)

Inductive shader_op : Type := DoCompile | ReadSid.

(** The outcomes of the reads of [sid] in a sequence of calls on one
    shader.  A raising [compile] is caught by the caller, which goes
    on. *)
Fixpoint sid_reads (ops : list shader_op) (st : Shader * world)
  : list (result Z) :=
  match ops with
  | [] => []
  | DoCompile :: ops' => sid_reads ops' (fst (compile st))
  | ReadSid :: ops' => sid (fst st) :: sid_reads ops' st
  end.

End Runtime.

(** ** The output as the specification words it

    "The concatenation of the synthesized header, any stage-specific
    extra declaration, and the rewritten lines joined by newlines",
    to be compared with what [preprocess_shader] returns. *)
Definition spec_joined_output (token : Z) (extra : str)
    (patterns : list pattern) (shader_source : str) : str :=
  py "#version " ++ format_int token ++ [LF] ++ extra
  ++ join [LF] (map (rewrite_line patterns) (split LF shader_source)).

(** ** A driver and a world to run the methods in *)

(** A driver that answers every call with the number of calls made so
    far, plus one, and never has anything to report.  The functions have
    the C calling convention, and the values are floats, which ctypes
    does not pass without a declared type. *)
Definition counting_driver {GLfloat : Type} : @driver GLfloat :=
  {| answer := fun calls _ => (Z.of_nat (length calls) + 1)%Z;
     info_log := fun _ _ => [];
     cdecl := true;
     passes_untyped := fun _ => false |}.

(** A driver that leaves [log] as the info log of every shader and
    reports [log_size] as its length; its other answers are those of
    [counting_driver]. *)
Definition logging_driver {GLfloat : Type} (log_size : Z) (log : list N)
  : @driver GLfloat :=
  {| answer := fun calls c =>
       match c with
       | glGetShaderiv _ pname =>
           if (pname =? GL_INFO_LOG_LENGTH)%Z then log_size
           else (Z.of_nat (length calls) + 1)%Z
       | _ => (Z.of_nat (length calls) + 1)%Z
       end;
     info_log := fun _ _ => log;
     cdecl := true;
     passes_untyped := fun _ => false |}.

(** A driver that reports ["No errors"], and the NUL after it, after
    every compilation. *)
Definition chatty_driver {GLfloat : Type} : @driver GLfloat :=
  logging_driver 10 (py "No errors" ++ [0]).

(** The binding of a platform whose functions do not have the C calling
    convention, and one whose values are integers, which ctypes passes
    as they are. *)
Definition stdcall_driver {GLfloat : Type} : @driver GLfloat :=
  {| answer := fun calls _ => (Z.of_nat (length calls) + 1)%Z;
     info_log := fun _ _ => [];
     cdecl := false;
     passes_untyped := fun _ => false |}.

Definition integer_driver : @driver Z :=
  {| answer := fun calls _ => (Z.of_nat (length calls) + 1)%Z;
     info_log := fun _ _ => [];
     cdecl := true;
     passes_untyped := fun _ => true |}.

Definition empty_world {GLfloat : Type} : @world GLfloat :=
  {| gl_calls := []; stdout := [] |}.

(** A shader as its constructor leaves it, and a program with one
    uniform registered, for the examples. *)
Definition example_shader : Shader :=
  {| kind := py "vertex"; _id := None;
     source := py "#version 110" ++ [LF] ++ py "void main(){}" |}.

Definition example_program : ShaderProgram * @world Q :=
  fst (add_uniform counting_driver (py "fill_color") (py "vec4")
         (ShaderProgram_init counting_driver empty_world)).

(** A call on a [ShaderProgram] that registers or updates a uniform. *)
Inductive uniform_op {GLfloat : Type} : Type :=
  | AddUniform (uniform_name dtype : str)
  | UpdateUniform (uniform_name : str) (data : list GLfloat).

Definition run_uniform_op {GLfloat : Type} (zero : GLfloat)
    (drv : @driver GLfloat) (op : @uniform_op GLfloat)
  : M ShaderProgram unit :=
  match op with
  | AddUniform uniform_name dtype => add_uniform drv uniform_name dtype
  | UpdateUniform uniform_name data =>
      update_uniform zero drv uniform_name data
  end.

(** ** The default shaders *)

Definition vertex_default : str :=
  join [LF]
    (map py
       [ ""; "attribute vec3 position;"; ""; "uniform mat4 transform;";
         "uniform mat4 modelview;"; "uniform mat4 projection;"; "";
         "void main()"; "{";
         "    gl_Position = projection * modelview * transform * vec4(position, 1.0);";
         "}"; "" ]%string).

Definition fragment_default : str :=
  join [LF]
    (map py
       [ ""; "uniform vec4 fill_color;"; ""; "void main()"; "{";
         "    gl_FragColor = fill_color;"; "}"; "" ]%string).

(** ** The rest of ShaderProgram *)

Section Program.

Context {GLfloat : Type} (zero : GLfloat) (drv : @driver GLfloat).

Definition link : M ShaderProgram unit :=
  bind self (fun this =>
  bind (gl drv (glLinkProgram (pid this))) (fun _ => ret tt)).

Definition activate : M ShaderProgram unit :=
  bind self (fun this =>
  bind (gl drv (glUseProgram (pid this))) (fun _ => ret tt)).

Definition deactivate : M ShaderProgram unit :=
  bind (gl drv (glUseProgram 0)) (fun _ => ret tt).

(** ["{}( pid={})".format(self.__class__.__name__, self.pid)] on an
    instance of the class itself; [__str__] is the same function. *)
Definition __repr__ (this : ShaderProgram) : str :=
  py "ShaderProgram" ++ py "( pid=" ++ format_int (pid this) ++ py ")".

Definition __str__ : ShaderProgram -> str := __repr__.

(** The calls a caller can make on a program. *)
Inductive program_op : Type :=
  | OpAddUniform (uniform_name dtype : str)
  | OpUpdateUniform (uniform_name : str) (data : list GLfloat)
  | OpAttach (shader : Shader)
  | OpLink
  | OpActivate
  | OpDeactivate.

Definition run_program_op (op : program_op) : M ShaderProgram unit :=
  match op with
  | OpAddUniform uniform_name dtype => add_uniform drv uniform_name dtype
  | OpUpdateUniform uniform_name data =>
      update_uniform zero drv uniform_name data
  | OpAttach shader => attach drv shader
  | OpLink => link
  | OpActivate => activate
  | OpDeactivate => deactivate
  end.

(** A sequence of calls on one program; the caller catches what a call
    raises and goes on. *)
Definition run_program_ops (ops : list program_op)
    (st : ShaderProgram * world) : ShaderProgram * world :=
  fold_left (fun st op => fst (run_program_op op st)) ops st.

End Program.

(** A driver that creates nothing: every call is answered with zero. *)
Definition null_driver {GLfloat : Type} : @driver GLfloat :=
  {| answer := fun _ _ => 0%Z;
     info_log := fun _ _ => [];
     cdecl := true;
     passes_untyped := fun _ => false |}.

(** * Properties of the preprocessor *)

Section Strings.

Lemma starts_with_app (prefix s : str) :
  starts_with prefix s = true -> prefix ++ drop (length prefix) s = s.
Proof.
  revert s. induction prefix as [|a prefix IH]; intros s H; [done|].
  destruct s as [|b s]; [done|]. cbn in H.
  apply andb_true_iff in H as [Hab H]. apply N.eqb_eq in Hab. subst b.
  cbn. f_equal. by apply IH.
Qed.

Lemma split_nonempty (sep : N) (s : str) : split sep s <> [].
Proof.
  destruct s as [|c s]; cbn; [done|].
  destruct (c =? sep); [done|]. by destruct (split sep s).
Qed.

Lemma join_cons (sep piece : str) (pieces : list str) :
  pieces <> [] -> join sep (piece :: pieces) = piece ++ sep ++ join sep pieces.
Proof. by destruct pieces. Qed.

(** Splitting loses nothing: the pieces, joined by the separator, are the
    text. *)
Lemma join_split (sep : N) (s : str) : join [sep] (split sep s) = s.
Proof.
  induction s as [|c s IH]; [done|]. cbn [split].
  destruct (c =? sep) eqn:Hc.
  - apply N.eqb_eq in Hc. subst c.
    rewrite join_cons by apply split_nonempty. cbn. by rewrite IH.
  - pose proof (split_nonempty sep s) as Hne.
    destruct (split sep s) as [|piece pieces]; [done|].
    destruct pieces as [|piece' pieces].
    + cbn in *. by rewrite IH.
    + rewrite <- IH. reflexivity.
Qed.

Lemma split_free (sep : N) (s : str) :
  Forall (fun piece => sep ∉ piece) (split sep s).
Proof.
  induction s as [|c s IH]; cbn.
  - constructor; [|constructor]. by apply not_elem_of_nil.
  - destruct (c =? sep) eqn:Hc.
    + constructor; [by apply not_elem_of_nil | done].
    + apply N.eqb_neq in Hc.
      destruct (split sep s) as [|piece pieces].
      * constructor; [|constructor]. intros Hin.
        apply list_elem_of_singleton in Hin. congruence.
      * inversion IH as [|? ? Hp Hps]; subst. constructor; [|done].
        intros Hin. apply elem_of_cons in Hin as [->|Hin]; [done|].
        by apply Hp.
Qed.

Lemma split_terminated (sep : N) (piece rest : str) :
  sep ∉ piece -> split sep (piece ++ sep :: rest) = piece :: split sep rest.
Proof.
  induction piece as [|c piece IH]; intros Hfree; cbn.
  - by rewrite N.eqb_refl.
  - apply not_elem_of_cons in Hfree as [Hc Hfree].
    destruct (c =? sep) eqn:E; [apply N.eqb_eq in E; congruence|].
    by rewrite IH.
Qed.

Lemma split_terminated_lines (sep : N) (lines : list str) :
  Forall (fun line => sep ∉ line) lines ->
  split sep (concat (map (fun line => line ++ [sep]) lines)) = lines ++ [[]].
Proof.
  induction 1 as [|line lines Hline _ IH]; [done|].
  cbn. rewrite <- app_assoc. cbn. rewrite split_terminated by done.
  by rewrite IH.
Qed.

Lemma concat_terminated (sep : N) (lines : list str) :
  lines <> [] ->
  concat (map (fun line => line ++ [sep]) lines) = join [sep] lines ++ [sep].
Proof.
  induction lines as [|line lines IH]; [done|]. intros _.
  destruct (decide (lines = [])) as [->|Hne].
  - cbn. by rewrite app_nil_r.
  - rewrite join_cons by done. cbn [map concat]. rewrite IH by done.
    by rewrite <- !app_assoc.
Qed.

End Strings.

Section Substitution.

Implicit Types (re : regex) (search replace line : str).

Lemma first_alternative_Some re (alts : list str) (s alt : str) :
  first_alternative re alts s = Some alt ->
  alt <> [] /\ starts_with alt s = true.
Proof.
  induction alts as [|a alts IH]; [done|]. cbn.
  destruct (negb (bool_decide (a = [])) && starts_with a s
            && lookahead re (drop (length a) s)) eqn:E; [|done].
  intros [= <-]. apply andb_true_iff in E as [E _].
  apply andb_true_iff in E as [Hne Hpre]. split; [|done].
  apply negb_true_iff, bool_decide_eq_false in Hne. done.
Qed.

Lemma match_here_Some re search prev (s alt : str) :
  match_here re search prev s = Some alt ->
  alt <> [] /\ starts_with alt s = true.
Proof.
  unfold match_here. destruct (lookbehind prev); [|done].
  apply first_alternative_Some.
Qed.

(** The pieces of a scan are the line: put back as they were found, they
    give the text from the position the scan started at. *)
Lemma scan_original re search prev (skip : nat) (s : str) :
  concat (map original (scan re search prev skip s)) = drop skip s.
Proof.
  revert prev skip. induction s as [|c s IH]; intros prev skip.
  - by destruct skip.
  - cbn [scan]. destruct skip as [|skip]; [|by rewrite IH].
    destruct (match_here re search prev (c :: s)) as [alt|] eqn:E.
    + apply match_here_Some in E as [Hne Hpre].
      destruct alt as [|a alt]; [done|].
      cbn [map concat original]. rewrite IH. cbn [length pred].
      apply starts_with_app in Hpre. exact Hpre.
    + cbn [map concat original]. rewrite IH. done.
Qed.

Lemma replaced_original replace (pieces : list piece) :
  existsb is_hit pieces = false ->
  concat (map (replaced replace) pieces) = concat (map original pieces).
Proof.
  induction pieces as [|p pieces IH]; [done|]. cbn.
  intros H. apply orb_false_iff in H as [Hp H].
  destruct p; [|done]. cbn. by rewrite IH.
Qed.

(** A line the expression does not match is returned as it is. *)
Lemma re_sub_no_match re search replace line :
  re_matches re search line = false -> re_sub re search replace line = line.
Proof.
  unfold re_matches, re_sub. intros H.
  rewrite (replaced_original replace) by exact H.
  by rewrite scan_original.
Qed.

Lemma scan_keep re search prev (skip : nat) (s : str) (c : N) :
  Keep c ∈ scan re search prev skip s -> c ∈ s.
Proof.
  revert prev skip. induction s as [|d s IH]; intros prev skip; cbn [scan].
  - intros H. by apply elem_of_nil in H.
  - destruct skip as [|skip].
    + destruct (match_here re search prev (d :: s)); intros H;
        apply elem_of_cons in H as [H|H]; try discriminate.
      * apply elem_of_cons. right. by eapply IH.
      * injection H as ->. apply elem_of_cons. by left.
      * apply elem_of_cons. right. by eapply IH.
    + intros H. apply elem_of_cons. right. by eapply IH.
Qed.

Lemma first_alternative_elem re (alts : list str) (s alt : str) :
  first_alternative re alts s = Some alt -> alt ∈ alts.
Proof.
  induction alts as [|a alts IH]; [done|]. cbn.
  destruct (negb (bool_decide (a = [])) && starts_with a s
            && lookahead re (drop (length a) s)).
  - intros [= <-]. by left.
  - intros H. right. by apply IH.
Qed.

(** What a scan reports as matched is one of the words searched for. *)
Lemma scan_hit re search prev (skip : nat) (s alt : str) :
  Hit alt ∈ scan re search prev skip s -> alt ∈ alternatives search.
Proof.
  revert prev skip. induction s as [|d s IH]; intros prev skip; cbn [scan].
  - intros H. by apply elem_of_nil in H.
  - destruct skip as [|skip]; [|by apply IH].
    destruct (match_here re search prev (d :: s)) as [alt'|] eqn:E; intros H;
      apply elem_of_cons in H as [H|H]; try discriminate;
      try (by eapply IH).
    injection H as ->. unfold match_here in E.
    destruct (lookbehind prev); [|done].
    by eapply first_alternative_elem.
Qed.

(** A substitution brings no line feed into a line that has none. *)
Lemma re_sub_free re search replace line :
  LF ∉ line -> LF ∉ replace -> LF ∉ re_sub re search replace line.
Proof.
  intros Hline Hrep Hin. unfold re_sub in Hin.
  apply list_elem_of_In, in_concat in Hin as (x & Hx & Hin).
  apply in_map_iff in Hx as (p & <- & Hp).
  apply list_elem_of_In in Hp, Hin.
  destruct p as [c|alt]; cbn in Hin.
  - apply list_elem_of_singleton in Hin. subst c.
    apply scan_keep in Hp. done.
  - done.
Qed.

Lemma rewrite_line_free (patterns : list pattern) line :
  Forall (fun '(_, _, replace) => LF ∉ replace) patterns ->
  LF ∉ line -> LF ∉ rewrite_line patterns line.
Proof.
  unfold rewrite_line. intros Hpat. revert line.
  induction Hpat as [|[[re search] replace] patterns Hrep _ IH];
    intros line Hline; [done|].
  cbn. apply IH. by apply re_sub_free.
Qed.

Lemma rewrite_line_no_match (patterns : list pattern) line :
  forallb (fun '(re, search, _) => negb (re_matches re search line)) patterns
    = true ->
  rewrite_line patterns line = line.
Proof.
  unfold rewrite_line.
  induction patterns as [|[[re search] replace] patterns IH]; [done|].
  cbn. intros H. apply andb_true_iff in H as [Hp H].
  apply negb_true_iff in Hp. rewrite re_sub_no_match by done. by apply IH.
Qed.

Lemma rewrite_lines_concat (patterns : list pattern)
    (processed_shader : str) (lines : list str) :
  rewrite_lines patterns processed_shader lines
  = processed_shader
    ++ concat (map (fun line => rewrite_line patterns line ++ [LF]) lines).
Proof.
  unfold rewrite_lines. revert processed_shader.
  induction lines as [|line lines IH]; intros acc; cbn.
  - by rewrite app_nil_r.
  - rewrite IH. by rewrite <- app_assoc.
Qed.

(** The patterns of the source are within what [first_alternative] and
    [re_sub] model: every alternative is a word that is not empty, and no
    replacement has a backslash. *)
Lemma patterns_are_words :
  Forall (fun '(_, search, replace) =>
            Forall (fun alt => alt <> [] /\ forallb is_word alt = true)
                   (alternatives search)
            /\ 92 ∉ replace)
         (vertex_patterns ++ fragment_patterns).
Proof.
  repeat (apply Forall_cons; split); try apply Forall_nil;
    by apply (bool_decide_unpack _).
Qed.

Lemma vertex_patterns_free :
  Forall (fun '(_, _, replace) => LF ∉ replace) vertex_patterns.
Proof.
  repeat (apply Forall_cons; split); try apply Forall_nil;
    by apply (bool_decide_unpack _).
Qed.

Lemma fragment_patterns_free :
  Forall (fun '(_, _, replace) => LF ∉ replace) fragment_patterns.
Proof.
  repeat (apply Forall_cons; split); try apply Forall_nil;
    by apply (bool_decide_unpack _).
Qed.

(** The body of the output: every rewritten line with a line feed after
    it is the rewritten lines joined by line feeds and one more line feed;
    and splitting it gives the rewritten lines back. *)
Lemma rewritten_body (patterns : list pattern) (shader_source : str) :
  Forall (fun '(_, _, replace) => LF ∉ replace) patterns ->
  let lines := map (rewrite_line patterns) (split LF shader_source) in
  concat (map (fun line => rewrite_line patterns line ++ [LF])
              (split LF shader_source))
  = join [LF] lines ++ [LF]
  /\ split LF (join [LF] lines ++ [LF]) = lines ++ [[]].
Proof.
  intros Hpat lines.
  assert (Hc : concat (map (fun line => rewrite_line patterns line ++ [LF])
                           (split LF shader_source))
               = join [LF] lines ++ [LF]).
  { rewrite <- concat_terminated.
    - subst lines. by rewrite map_map.
    - subst lines. pose proof (split_nonempty LF shader_source).
      by destruct (split LF shader_source). }
  split; [exact Hc|].
  rewrite <- concat_terminated.
  - apply split_terminated_lines. subst lines.
    apply Forall_map. eapply Forall_impl; [apply split_free|].
    intros line Hline. cbn. by apply rewrite_line_free.
  - subst lines. pose proof (split_nonempty LF shader_source).
    by destruct (split LF shader_source).
Qed.

Lemma starts_with_take (prefix s : str) :
  starts_with prefix s = true -> prefix = take (length prefix) s.
Proof.
  intros H. apply starts_with_app in H.
  rewrite <- (take_app_length prefix (drop (length prefix) s)) at 1.
  by rewrite H.
Qed.

Lemma first_alternative_lookahead re (alts : list str) (s alt : str) :
  first_alternative re alts s = Some alt ->
  lookahead re (drop (length alt) s) = true.
Proof.
  induction alts as [|a alts IH]; [done|]. cbn.
  destruct (negb (bool_decide (a = [])) && starts_with a s
            && lookahead re (drop (length a) s)) eqn:E; [|done].
  intros [= <-]. by apply andb_true_iff in E as [_ E].
Qed.

Lemma last_option_list (prev : option N) : last (option_list prev) = prev.
Proof. by destruct prev. Qed.

(** Where a scan that started in the middle of a line reports a match:
    the text before it ends in no word character, and the text after it
    passes the lookahead. *)
Lemma scan_hit_context re search prev (skip : nat) (s : str)
    (before after : list piece) (alt : str) :
  scan re search prev skip s = before ++ Hit alt :: after ->
  lookbehind (last (option_list prev ++ take skip s
                    ++ concat (map original before))) = true
  /\ lookahead re (concat (map original after)) = true.
Proof.
  revert prev skip before. induction s as [|c s IH]; intros prev skip before.
  - cbn. by destruct before.
  - cbn [scan]. destruct skip as [|skip].
    + destruct (match_here re search prev (c :: s)) as [alt'|] eqn:E.
      * pose proof E as Hctx. unfold match_here in Hctx.
        destruct (lookbehind prev) eqn:Hprev; [|done].
        apply match_here_Some in E as [Hne Hpre].
        destruct alt' as [|a alt']; [done|].
        destruct before as [|b before]; cbn [app]; intros [= ? H]; subst.
        -- split.
           ++ cbn. by rewrite app_nil_r, last_option_list.
           ++ rewrite scan_original.
              by apply first_alternative_lookahead in Hctx.
        -- apply IH in H as [Hb Ha]. split; [|exact Ha].
           cbn [map concat original take app].
           pose proof Hpre as Heq. apply starts_with_take in Heq.
           cbn [length take] in Heq. injection Heq as -> Heq.
           cbn [length pred] in Hb. rewrite <- Heq in Hb.
           rewrite last_app_cons. exact Hb.
      * destruct before as [|b before]; cbn [app]; intros [= ? H]; subst.
        apply IH in H as [Hb Ha]. split; [|exact Ha].
        cbn [map concat original take app].
        rewrite last_app_cons. exact Hb.
    + intros H. apply IH in H as [Hb Ha]. split; [|exact Ha].
      cbn [take app]. rewrite last_app_cons. exact Hb.
Qed.

(** Where such a scan copies a character, the expression does not match
    at that character. *)
Lemma scan_keep_context re search prev (skip : nat) (s : str)
    (before after : list piece) (c : N) :
  scan re search prev skip s = before ++ Keep c :: after ->
  match_here re search
    (last (option_list prev ++ take skip s ++ concat (map original before)))
    (c :: concat (map original after)) = None.
Proof.
  revert prev skip before. induction s as [|d s IH]; intros prev skip before.
  - cbn. by destruct before.
  - cbn [scan]. destruct skip as [|skip].
    + destruct (match_here re search prev (d :: s)) as [alt'|] eqn:E.
      * pose proof E as Hctx.
        apply match_here_Some in Hctx as [Hne Hpre].
        destruct alt' as [|a alt']; [done|].
        destruct before as [|b before]; cbn [app]; intros [= ? H]; subst.
        apply IH in H.
        cbn [map concat original take app].
        pose proof Hpre as Heq. apply starts_with_take in Heq.
        cbn [length take] in Heq. injection Heq as -> Heq.
        cbn [length pred] in H. rewrite <- Heq in H.
        rewrite last_app_cons. exact H.
      * destruct before as [|b before]; cbn [app]; intros [= ? H]; subst.
        -- rewrite scan_original. cbn [take map concat app drop].
           by rewrite app_nil_r, last_option_list.
        -- apply IH in H.
           cbn [map concat original take app].
           rewrite last_app_cons. exact H.
    + intros H. apply IH in H.
      cbn [take app]. rewrite last_app_cons. exact H.
Qed.

End Substitution.

Section Preprocessor.

Implicit Types (shader_source shader_type open_gl_version : str).

Lemma version_3_3 : GLSL_VERSIONS !! py "3.3" = Some 330%Z.
Proof. vm_compute. reflexivity. Qed.

(** The code looks the label up before anything else. *)
Lemma preprocess_shader_unknown_label shader_source shader_type
    open_gl_version :
  GLSL_VERSIONS !! open_gl_version = None ->
  preprocess_shader shader_source shader_type open_gl_version
  = Raise (KeyError open_gl_version).
Proof. intros H. unfold preprocess_shader. by rewrite H. Qed.

(** With a label of [130] or more and a source without a version, a
    shader type other than ['vertex'] and ['fragment'] is refused. *)
Lemma preprocess_shader_other_type shader_source shader_type open_gl_version
    (token : Z) :
  GLSL_VERSIONS !! open_gl_version = Some token ->
  (130 <= token)%Z ->
  contains (py "#version") shader_source = false ->
  shader_type <> py "vertex" ->
  shader_type <> py "fragment" ->
  preprocess_shader shader_source shader_type open_gl_version
  = Raise (TypeError (py "Cannot preprocess " ++ shader_type
                      ++ py " shader.")).
Proof.
  intros Hv Htok Hsrc Hvert Hfrag. unfold preprocess_shader.
  rewrite Hv, Hsrc. destruct (Z.ltb_spec token 130); [lia|].
  by rewrite !bool_decide_eq_false_2.
Qed.

(** C1, as the claim states it, fails: a source with a version marker
    and a label that is not in [GLSL_VERSIONS] raise [KeyError]; the
    source is not returned. *)
Lemma preprocess_shader_versioned_unknown_label :
  contains (py "#version") (py "#version 120") = true
  /\ preprocess_shader (py "#version 120") (py "vertex") (py "9.9")
     = Raise (KeyError (py "9.9"))
  /\ preprocess_shader (py "#version 120") (py "vertex") (py "9.9")
     <> Ok (py "#version 120").
Proof. split; [|split]; vm_compute; [reflexivity | reflexivity | discriminate]. Qed.

(** C1, amended: for every source text that contains ["#version"]
    anywhere, every shader type and every version label that is in
    [GLSL_VERSIONS], [preprocess_shader] returns the source text
    unchanged. *)
Theorem preprocess_shader_versioned_unchanged shader_source shader_type
    open_gl_version :
  contains (py "#version") shader_source = true ->
  is_Some (GLSL_VERSIONS !! open_gl_version) ->
  preprocess_shader shader_source shader_type open_gl_version
  = Ok shader_source.
Proof.
  intros Hsrc [token Hv]. unfold preprocess_shader. by rewrite Hv, Hsrc.
Qed.

Lemma preprocess_shader_versioned_unchanged_witness :
  preprocess_shader (py "void main(){} // #version 450") (py "geometry")
                    (py "4.5")
  = Ok (py "void main(){} // #version 450").
Proof.
  apply preprocess_shader_versioned_unchanged.
  - vm_compute. reflexivity.
  - exists 450%Z. vm_compute. reflexivity.
Defined.

(** C2: for every label that [GLSL_VERSIONS] maps to a token below 130
    and every source text without ["#version"], [preprocess_shader]
    returns ["#version <token>\n"] followed by the source as it is, for
    every shader type. *)
Theorem preprocess_shader_version_floor shader_source shader_type
    open_gl_version (token : Z) :
  GLSL_VERSIONS !! open_gl_version = Some token ->
  (token < 130)%Z ->
  contains (py "#version") shader_source = false ->
  preprocess_shader shader_source shader_type open_gl_version
  = Ok (py "#version " ++ format_int token ++ [LF] ++ shader_source).
Proof.
  intros Hv Htok Hsrc. unfold preprocess_shader. rewrite Hv, Hsrc.
  destruct (Z.ltb_spec token 130); [|lia]. by rewrite <- !app_assoc.
Qed.

Lemma preprocess_shader_version_floor_witness :
  preprocess_shader (py "varying vec4 texture;") (py "geometry") (py "2.1")
  = Ok (py "#version 120" ++ [LF] ++ py "varying vec4 texture;").
Proof.
  apply (preprocess_shader_version_floor _ _ _ 120%Z).
  - vm_compute. reflexivity.
  - lia.
  - vm_compute. reflexivity.
Defined.

(** C3: the fragment shader
    [varying vec4 texture; void main(){ gl_FragColor = texture2D(texture); }]
    preprocessed for version ["4.1"]: [out vec4 _fragColor;] comes right
    after the version line, the variable [texture] is [texMap] where it
    is declared and where it is used, the call of [texture2D] is a call
    of [texture], and [gl_FragColor] is [_fragColor]. *)
Theorem preprocess_shader_fragment_example :
  preprocess_shader
    (py "varying vec4 texture; void main(){ gl_FragColor = texture2D(texture); }")
    (py "fragment") (py "4.1")
  = Ok (py "#version 410" ++ [LF]
        ++ py "out vec4 _fragColor;"
        ++ py "in vec4 texMap; void main(){ _fragColor = texture(texMap); }"
        ++ [LF]).
Proof. vm_compute. reflexivity. Qed.

(** The vertex shader of the specification: the attribute becomes an
    input, the call of [texture2D] a call of [texture], and
    [gl_Position] stays. *)
Example preprocess_shader_vertex_example :
  preprocess_shader
    (py "attribute vec3 position;" ++ [LF]
     ++ py "void main(){ gl_Position = texture2D(position); }")
    (py "vertex") (py "3.3")
  = Ok (py "#version 330" ++ [LF]
        ++ py "in vec3 position;" ++ [LF]
        ++ py "void main(){ gl_Position = texture(position); }" ++ [LF]).
Proof. vm_compute. reflexivity. Qed.

(** C4, as the claim states it, fails: the rewritten lines are not only
    joined by line feeds, a line feed follows the last one too. *)
Lemma preprocess_shader_not_joined :
  GLSL_VERSIONS !! py "3.3" = Some 330%Z
  /\ contains (py "#version") (py "void main(){}") = false
  /\ preprocess_shader (py "void main(){}") (py "vertex") (py "3.3")
     = Ok (py "#version 330" ++ [LF] ++ py "void main(){}" ++ [LF])
  /\ preprocess_shader (py "void main(){}") (py "vertex") (py "3.3")
     <> Ok (spec_joined_output 330 [] vertex_patterns (py "void main(){}")).
Proof.
  repeat split; vm_compute; try reflexivity. discriminate.
Qed.

(** C4, amended: for every source text without ["#version"] and every
    label with a token of 130 or more, the output for a vertex or
    fragment shader is the ["#version <token>"] line, then for a fragment
    shader [out vec4 _fragColor;], then the rewritten lines of the
    source joined by line feeds, then one more line feed.  The line
    boundaries of the input are preserved: the lines of the source are
    all there and the output splits into exactly the rewritten lines.
    All text that no rule matches is reproduced as it is: a rewritten
    line is the line after the substitutions of the stage in their
    order, each substitution replaces the words it matched, each a word
    of the rule in the position the rule asks for, and copies every
    other character in its place; so a line that no rule matches is
    unchanged. *)
Theorem preprocess_shader_rewritten shader_source open_gl_version (token : Z) :
  GLSL_VERSIONS !! open_gl_version = Some token ->
  (130 <= token)%Z ->
  contains (py "#version") shader_source = false ->
  preprocess_shader shader_source (py "vertex") open_gl_version
  = Ok (spec_joined_output token [] vertex_patterns shader_source ++ [LF])
  /\ preprocess_shader shader_source (py "fragment") open_gl_version
     = Ok (spec_joined_output token (py "out vec4 _fragColor;")
             fragment_patterns shader_source ++ [LF])
  /\ join [LF] (split LF shader_source) = shader_source
  /\ (forall patterns,
        patterns = vertex_patterns \/ patterns = fragment_patterns ->
        split LF (join [LF] (map (rewrite_line patterns)
                                 (split LF shader_source)) ++ [LF])
        = map (rewrite_line patterns) (split LF shader_source) ++ [[]]
        /\ forall line,
             forallb (fun '(re, search, _) =>
                        negb (re_matches re search line)) patterns = true ->
             rewrite_line patterns line = line)
  /\ (forall line,
        rewrite_line vertex_patterns line
        = re_sub re_fn (py "texture2DRect|texture2D|texture3D|textureCube")
            (py "texture")
            (re_sub re_id (py "texture") (py "texMap")
               (re_sub re_id (py "attribute") (py "in")
                  (re_sub re_id (py "varying") (py "out") line)))
        /\ rewrite_line fragment_patterns line
           = re_sub re_id (py "gl_FragColor") (py "_fragColor")
               (re_sub re_fn
                  (py "texture2DRect|texture2D|texture3D|textureCube")
                  (py "texture")
                  (re_sub re_id (py "texture") (py "texMap")
                     (re_sub re_id (py "varying|attribute") (py "in")
                        line))))
  /\ (forall re search replace line,
        let pieces := scan re search None O line in
        concat (map original pieces) = line
        /\ re_sub re search replace line
           = concat (map (replaced replace) pieces)
        /\ (forall before alt after,
              pieces = before ++ Hit alt :: after ->
              alt ∈ alternatives search
              /\ lookbehind (last (concat (map original before))) = true
              /\ lookahead re (concat (map original after)) = true)
        /\ (forall before c after,
              pieces = before ++ Keep c :: after ->
              match_here re search (last (concat (map original before)))
                         (c :: concat (map original after)) = None)).
Proof.
  intros Hv Htok Hsrc.
  assert (Hnot : (token <? 130)%Z = false) by (apply Z.ltb_ge; lia).
  split; [|split; [|split; [|split; [|split]]]].
  - unfold preprocess_shader, spec_joined_output.
    rewrite Hv, Hsrc, Hnot. cbn [bool_decide]. f_equal.
    rewrite rewrite_lines_concat.
    destruct (rewritten_body vertex_patterns shader_source
                vertex_patterns_free) as [-> _].
    by rewrite <- !app_assoc.
  - unfold preprocess_shader, spec_joined_output.
    rewrite Hv, Hsrc, Hnot. f_equal.
    rewrite rewrite_lines_concat.
    destruct (rewritten_body fragment_patterns shader_source
                fragment_patterns_free) as [-> _].
    by rewrite <- !app_assoc.
  - apply join_split.
  - intros patterns Hpat. split.
    + apply rewritten_body.
      destruct Hpat as [-> | ->];
        [apply vertex_patterns_free | apply fragment_patterns_free].
    + intros line. apply rewrite_line_no_match.
  - intros line. split; reflexivity.
  - intros re search replace line pieces. split; [|split; [|split]].
    + apply (scan_original re search None O line).
    + reflexivity.
    + intros before alt after Hpieces. split.
      * apply (scan_hit re search None O line). fold pieces.
        rewrite Hpieces. apply elem_of_app. right. by left.
      * apply (scan_hit_context re search None O line before after alt
                 Hpieces).
    + intros before c after Hpieces.
      apply (scan_keep_context re search None O line before after c
               Hpieces).
Qed.

Lemma preprocess_shader_rewritten_witness :
  preprocess_shader (py "attribute vec3 position;") (py "vertex") (py "3.3")
  = Ok (spec_joined_output 330 [] vertex_patterns
          (py "attribute vec3 position;") ++ [LF]).
Proof.
  apply (preprocess_shader_rewritten _ (py "3.3") 330%Z).
  - vm_compute. reflexivity.
  - lia.
  - vm_compute. reflexivity.
Defined.

(** C5, as the claim states it, fails: a source with a version marker is
    returned for the shader type ['geometry'] too; a [Shader] of that
    kind is constructed with the default version ['2.0'], and, when it is
    not preprocessed, with any version. *)
Lemma geometry_shader_accepted :
  preprocess_shader (py "#version 330") (py "geometry") (py "3.3")
  = Ok (py "#version 330")
  /\ Shader_init (py "void main(){}") (py "geometry") (py "2.0") true
     = Ok {| kind := py "geometry"; _id := None;
             source := py "#version 110" ++ [LF] ++ py "void main(){}" |}
  /\ Shader_init (py "void main(){}") (py "geometry") (py "3.3") false
     = Ok {| kind := py "geometry"; _id := None;
             source := py "void main(){}" |}.
Proof. repeat split; vm_compute; reflexivity. Qed.

(** C5, amended: for every source text without ["#version"] and every
    shader type other than ['vertex'] and ['fragment'],
    [preprocess_shader] with the label ["3.3"] raises [TypeError], and so
    does the construction of a [Shader] of that kind with that label
    when it preprocesses its source. *)
Theorem preprocess_shader_unsupported_type shader_source shader_type :
  contains (py "#version") shader_source = false ->
  shader_type <> py "vertex" ->
  shader_type <> py "fragment" ->
  preprocess_shader shader_source shader_type (py "3.3")
  = Raise (TypeError (py "Cannot preprocess " ++ shader_type
                      ++ py " shader."))
  /\ Shader_init shader_source shader_type (py "3.3") true
     = Raise (TypeError (py "Cannot preprocess " ++ shader_type
                         ++ py " shader.")).
Proof.
  intros Hsrc Hvert Hfrag.
  assert (H : preprocess_shader shader_source shader_type (py "3.3")
              = Raise (TypeError (py "Cannot preprocess " ++ shader_type
                                  ++ py " shader."))).
  { apply (preprocess_shader_other_type _ _ _ 330%Z);
      [apply version_3_3 | lia | done..]. }
  split; [exact H|]. unfold Shader_init. by rewrite H.
Qed.

Lemma preprocess_shader_unsupported_type_witness :
  preprocess_shader (py "void main(){}") (py "geometry") (py "3.3")
  = Raise (TypeError (py "Cannot preprocess geometry shader."))
  /\ Shader_init (py "void main(){}") (py "geometry") (py "3.3") true
     = Raise (TypeError (py "Cannot preprocess geometry shader.")).
Proof.
  apply (preprocess_shader_unsupported_type (py "void main(){}")
           (py "geometry")).
  - vm_compute. reflexivity.
  - discriminate.
  - discriminate.
Defined.

(** C6: for every source text and shader type, [preprocess_shader] with
    a label that is not in [GLSL_VERSIONS] raises [KeyError] on that
    label, and the constructor of [Shader], which calls it, raises the
    same. *)
Theorem preprocess_shader_unknown_version shader_source shader_type
    open_gl_version :
  GLSL_VERSIONS !! open_gl_version = None ->
  preprocess_shader shader_source shader_type open_gl_version
  = Raise (KeyError open_gl_version)
  /\ Shader_init shader_source shader_type open_gl_version true
     = Raise (KeyError open_gl_version).
Proof.
  intros Hv. pose proof (preprocess_shader_unknown_label shader_source
                           shader_type open_gl_version Hv) as H.
  split; [exact H|]. unfold Shader_init. by rewrite H.
Qed.

Lemma preprocess_shader_unknown_version_witness :
  preprocess_shader (py "#version 330") (py "vertex") (py "5.0")
  = Raise (KeyError (py "5.0"))
  /\ Shader_init (py "#version 330") (py "vertex") (py "5.0") true
     = Raise (KeyError (py "5.0")).
Proof.
  apply preprocess_shader_unknown_version. vm_compute. reflexivity.
Defined.

End Preprocessor.

(** * Properties of shaders and shader programs *)

(** Unfolds the plumbing of a method down to the matches on what it
    looks up. *)
Ltac run_method :=
  unfold bind, self, lift, getitem, set_self, gl, gl_info_log, print,
    raise, ret;
  cbn [fst snd gl_calls stdout kind source _id pid _uniforms].

Section Objects.

Context {GLfloat : Type} (zero : GLfloat) (drv : @driver GLfloat).

Implicit Types (w : @world GLfloat) (sh : Shader) (p : ShaderProgram).

Lemma uniform_function_vec4 : _uniform_function_map !! py "vec4" = Some _uvec4.
Proof. vm_compute. reflexivity. Qed.

Lemma Shader_init_fresh (source kind version : str) (preprocess : bool) sh :
  Shader_init source kind version preprocess = Ok sh -> _id sh = None.
Proof.
  unfold Shader_init. destruct preprocess.
  - destruct (preprocess_shader source kind version); [|done].
    by intros [= <-].
  - by intros [= <-].
Qed.

(** What [compile] does to a shader of a supported kind whose source can
    be encoded: the handle is stored, the source handed over and
    compiled, the status and the length of the log asked for; a buffer of
    that length is made, the log read into it and decoded; the source and
    the log are printed when the log is not empty. *)
Lemma compile_supported sh w (shader_type : Z) (src : list N) :
  _supported_shader_types !! kind sh = Some shader_type ->
  encode (source sh) = Ok src ->
  let id := answer drv (gl_calls w) (glCreateShader shader_type) in
  let sh' := {| kind := kind sh; _id := Some id; source := source sh |} in
  let calls :=
    gl_calls w
    ++ [glCreateShader shader_type; glShaderSource id 1 (until_nul src);
        glCompileShader id; glGetShaderiv id GL_COMPILE_STATUS] in
  let log_size :=
    answer drv calls (glGetShaderiv id GL_INFO_LOG_LENGTH) in
  let calls' := calls ++ [glGetShaderiv id GL_INFO_LOG_LENGTH] in
  compile drv (sh, w)
  = match create_string_buffer log_size with
    | Raise e => ((sh', {| gl_calls := calls'; stdout := stdout w |}), Raise e)
    | Ok buffer =>
        let calls'' := calls' ++ [glGetShaderInfoLog id log_size] in
        match decode (until_nul (written_into buffer
                                   (info_log drv calls' id))) with
        | Raise e =>
            ((sh', {| gl_calls := calls''; stdout := stdout w |}), Raise e)
        | Ok log_message =>
            ((sh', {| gl_calls := calls'';
                      stdout :=
                        stdout w ++ (if (0 <? length log_message)%nat
                                     then [source sh; log_message]
                                     else []) |}),
             Ok tt)
        end
    end.
Proof.
  intros Hkind Hsrc. cbv zeta.
  unfold compile, debug. run_method. rewrite Hkind. run_method.
  rewrite Hsrc. run_method.
  rewrite <- !app_assoc. cbn [app].
  destruct (create_string_buffer _) as [buffer|e]; [|reflexivity].
  destruct (decode _) as [log_message|e]; [|reflexivity].
  destruct (0 <? length _)%nat; run_method;
    rewrite <- ?app_assoc, ?app_nil_r; reflexivity.
Qed.

Lemma create_string_buffer_Raise (size : Z) (e : exn) :
  create_string_buffer size = Raise e -> e = ValueError.
Proof.
  unfold create_string_buffer. destruct (size <? 0)%Z; congruence.
Qed.

Lemma decoded_Raise (c : N) (r : result str) (e : exn) :
  (forall e', r = Raise e' -> e' = UnicodeDecodeError) ->
  decoded c r = Raise e -> e = UnicodeDecodeError.
Proof. destruct r; cbn; [done|]. intros H [= <-]. by apply H. Qed.

Lemma decode_Raise (bytes : list N) (e : exn) :
  decode bytes = Raise e -> e = UnicodeDecodeError.
Proof.
  remember (length bytes) as n eqn:Hn. revert bytes Hn e.
  induction n as [n IH] using lt_wf_ind. intros bytes -> e.
  assert (Hrec : forall rest c e',
             (length rest < length bytes)%nat ->
             decoded c (decode rest) = Raise e' -> e' = UnicodeDecodeError).
  { intros rest c e' Hlt. apply decoded_Raise. intros e''.
    by apply (IH (length rest) Hlt rest). }
  destruct bytes as [|b0 rest]; [done|]. cbn [decode length] in *.
  destruct (b0 <? 128); [apply Hrec; lia|].
  destruct ((194 <=? b0) && (b0 <=? 223)).
  { destruct rest as [|b1 rest1]; [congruence|].
    destruct (continuation b1); [apply Hrec; cbn; lia | congruence]. }
  destruct ((224 <=? b0) && (b0 <=? 239)).
  { destruct rest as [|b1 [|b2 rest2]]; [congruence..|].
    destruct (_ && _); [apply Hrec; cbn; lia | congruence]. }
  destruct ((240 <=? b0) && (b0 <=? 244)); [|congruence].
  destruct rest as [|b1 [|b2 [|b3 rest3]]]; [congruence..|].
  destruct (_ && _); [apply Hrec; cbn; lia | congruence].
Qed.

Lemma encode_Raise (s : str) (e : exn) :
  encode s = Raise e -> e = UnicodeEncodeError.
Proof.
  destruct s as [|c s]; [done|]. cbn.
  destruct (encode_char c), (encode s); congruence.
Qed.

(** [compile] raises for a kind that is not supported, a source that
    cannot be encoded, a negative length of the log and a log that
    cannot be decoded, and for nothing else. *)
Lemma compile_raises_only sh w (e : exn) :
  snd (compile drv (sh, w)) = Raise e ->
  e = KeyError (kind sh) \/ e = UnicodeEncodeError
  \/ e = ValueError \/ e = UnicodeDecodeError.
Proof.
  destruct (_supported_shader_types !! kind sh) as [shader_type|] eqn:Hkind.
  - destruct (encode (source sh)) as [src|e'] eqn:Hsrc.
    + rewrite (compile_supported sh w shader_type src Hkind Hsrc).
      cbv zeta. destruct (create_string_buffer _) as [buffer|e'] eqn:Hb.
      * destruct (decode _) as [log_message|e'] eqn:Hd; [done|].
        cbn. intros [= <-]. apply decode_Raise in Hd. auto.
      * cbn. intros [= <-]. apply create_string_buffer_Raise in Hb. auto.
    + unfold compile. run_method. rewrite Hkind. run_method.
      rewrite Hsrc. cbn. intros [= <-]. apply encode_Raise in Hsrc. auto.
  - unfold compile. run_method. rewrite Hkind. cbn. intros [= <-]. by left.
Qed.

(** Once the kind is looked up, the answer of [glCreateShader] is
    stored, whatever happens after. *)
Lemma compile_stores_handle sh w (shader_type : Z) :
  _supported_shader_types !! kind sh = Some shader_type ->
  fst (fst (compile drv (sh, w)))
  = {| kind := kind sh;
       _id := Some (answer drv (gl_calls w) (glCreateShader shader_type));
       source := source sh |}.
Proof.
  intros Hkind. destruct (encode (source sh)) as [src|e'] eqn:Hsrc.
  - rewrite (compile_supported sh w shader_type src Hkind Hsrc).
    cbv zeta. destruct (create_string_buffer _); [|done].
    by destruct (decode _).
  - unfold compile. run_method. rewrite Hkind. run_method.
    by rewrite Hsrc.
Qed.

Lemma compile_Ok sh w sh' w' :
  compile drv (sh, w) = ((sh', w'), Ok tt) ->
  exists shader_type,
    _supported_shader_types !! kind sh = Some shader_type
    /\ sh' = {| kind := kind sh;
                _id := Some (answer drv (gl_calls w)
                                    (glCreateShader shader_type));
                source := source sh |}.
Proof.
  intros H.
  destruct (_supported_shader_types !! kind sh) as [shader_type|] eqn:Hkind.
  - exists shader_type. split; [done|].
    rewrite <- (compile_stores_handle sh w shader_type Hkind). by rewrite H.
  - revert H. unfold compile. run_method. rewrite Hkind. cbn. discriminate.
Qed.

(** Reading [sid] changes nothing, so a run of reads sees one handle. *)
Lemma sid_reads_stable (ops : list shader_op) sh w :
  Forall (fun op => op = ReadSid) ops ->
  Forall (fun r => r = sid sh) (sid_reads drv ops (sh, w)).
Proof.
  induction 1 as [|op ops -> _ IH]; cbn; [constructor|].
  constructor; [done | exact IH].
Qed.

(** C7, amended: a freshly constructed [Shader] raises [NameError] when
    its [sid] is read; after a [compile] that returns with a handle other
    than zero, be it the first on the shader or a later one, [sid]
    returns the handle [glCreateShader] answered in that call, whatever
    the shader held before, and goes on returning it for as long as
    [compile] is not called again. *)
Theorem shader_handle_lifecycle (shader_source shader_kind version : str)
    (preprocess : bool) (fresh : Shader) sh w sh' w' (handle : Z)
    (ops : list shader_op) :
  Shader_init shader_source shader_kind version preprocess = Ok fresh ->
  compile drv (sh, w) = ((sh', w'), Ok tt) ->
  _id sh' = Some handle ->
  handle <> 0%Z ->
  Forall (fun op => op = ReadSid) ops ->
  sid fresh = Raise (NameError (py "Shader hasn't been created yet."))
  /\ (exists shader_type,
        _supported_shader_types !! kind sh = Some shader_type
        /\ handle = answer drv (gl_calls w) (glCreateShader shader_type))
  /\ sid sh' = Ok handle
  /\ Forall (fun r => r = Ok handle) (sid_reads drv ops (sh', w')).
Proof.
  intros Hinit Hcompile Hid Hnz Hops.
  assert (Hsid : sid sh' = Ok handle).
  { unfold sid. rewrite Hid. by destruct (Z.eqb_spec handle 0). }
  split; [|split; [|split]].
  - unfold sid. by rewrite (Shader_init_fresh _ _ _ _ _ Hinit).
  - apply compile_Ok in Hcompile as (shader_type & Hkind & ->).
    exists shader_type. split; [exact Hkind|].
    cbn in Hid. by injection Hid.
  - exact Hsid.
  - rewrite <- Hsid. by apply sid_reads_stable.
Qed.

(** C8: after [add_uniform('fill_color', 'vec4')], an update of
    [fill_color] with four values calls [glUniform4f] once, with the
    location stored at registration and the four values; an update of a
    name that is not registered raises [KeyError]. *)
Theorem uniform_round_trip p w (v0 v1 v2 v3 : GLfloat) (unregistered : str)
    (data : list GLfloat) :
  unregistered <> py "fill_color" ->
  _uniforms p !! unregistered = None ->
  let location :=
    answer drv (gl_calls w) (glGetUniformLocation (pid p) (py "fill_color")) in
  let p1 :=
    {| pid := pid p;
       _uniforms :=
         <[py "fill_color" :=
             {| name := py "fill_color"; uid := location;
                function := _uvec4 |}]> (_uniforms p) |} in
  let w1 :=
    {| gl_calls :=
         gl_calls w ++ [glGetUniformLocation (pid p) (py "fill_color")];
       stdout := stdout w |} in
  add_uniform drv (py "fill_color") (py "vec4") (p, w) = ((p1, w1), Ok tt)
  /\ update_uniform zero drv (py "fill_color") [v0; v1; v2; v3] (p1, w1)
     = ((p1, {| gl_calls := gl_calls w1 ++ [glUniform4f location v0 v1 v2 v3];
                stdout := stdout w1 |}),
        Ok tt)
  /\ update_uniform zero drv unregistered data (p1, w1)
     = ((p1, w1), Raise (KeyError unregistered)).
Proof.
  intros Hne Hnone. cbv zeta. split; [|split].
  - unfold add_uniform. run_method.
    rewrite uniform_function_vec4. reflexivity.
  - unfold update_uniform. run_method.
    rewrite lookup_insert_eq. reflexivity.
  - unfold update_uniform. run_method.
    rewrite lookup_insert_ne by done. by rewrite Hnone.
Qed.

(** C9, amended: [compile] of a shader of a supported kind, with a
    source that can be encoded, returns without an exception whenever the
    driver reports a length of the log that is not negative and what it
    leaves in the buffer of that length is UTF-8 text; when that text is
    not empty, the source and then the text are printed, and nothing is
    raised. *)
Theorem compile_reports_and_continues sh w (shader_type : Z) (src : list N)
    (log_message : str) :
  _supported_shader_types !! kind sh = Some shader_type ->
  encode (source sh) = Ok src ->
  let id := answer drv (gl_calls w) (glCreateShader shader_type) in
  let calls :=
    gl_calls w
    ++ [glCreateShader shader_type; glShaderSource id 1 (until_nul src);
        glCompileShader id; glGetShaderiv id GL_COMPILE_STATUS] in
  let log_size := answer drv calls (glGetShaderiv id GL_INFO_LOG_LENGTH) in
  (0 <= log_size)%Z ->
  decode (until_nul
            (written_into (replicate (Z.to_nat log_size) 0)
               (info_log drv (calls ++ [glGetShaderiv id GL_INFO_LOG_LENGTH])
                         id)))
  = Ok log_message ->
  exists w',
    compile drv (sh, w)
    = (({| kind := kind sh; _id := Some id; source := source sh |}, w'),
       Ok tt)
    /\ stdout w' = stdout w ++ (if (0 <? length log_message)%nat
                                then [source sh; log_message] else []).
Proof.
  intros Hkind Hsrc id calls log_size Hsize Hlog.
  rewrite (compile_supported sh w shader_type src Hkind Hsrc).
  cbv zeta. fold id. fold calls. fold log_size.
  unfold create_string_buffer. destruct (Z.ltb_spec log_size 0); [lia|].
  rewrite Hlog. eexists. split; reflexivity.
Qed.

(** C10: a call of [add_uniform] with a data type that is not in
    [_uniform_function_map] raises before anything is stored or asked of
    OpenGL, a call of [update_uniform] with a name that is not registered
    raises the same way, and whatever call of the two raises, the program
    after it is the program before it: every binding and its location
    are as they were. *)
Theorem failed_uniform_call_keeps_bindings p w (uniform_name : str) :
  (forall dtype,
     _uniform_function_map !! dtype = None ->
     add_uniform drv uniform_name dtype (p, w)
     = ((p, w), Raise (KeyError dtype)))
  /\ (forall data,
        _uniforms p !! uniform_name = None ->
        update_uniform zero drv uniform_name data (p, w)
        = ((p, w), Raise (KeyError uniform_name)))
  /\ (forall op p' w' e,
        run_uniform_op zero drv op (p, w) = ((p', w'), Raise e) -> p' = p).
Proof.
  split; [|split].
  - intros dtype Hnone. unfold add_uniform. run_method. by rewrite Hnone.
  - intros data Hnone. unfold update_uniform. run_method. by rewrite Hnone.
  - intros [name dtype | name data] p' w' e; cbn [run_uniform_op].
    + unfold add_uniform. run_method.
      destruct (_uniform_function_map !! dtype); [|by intros [= <- _ _]].
      destruct (encode name); [|by intros [= <- _ _]].
      discriminate.
    + unfold update_uniform. run_method.
      destruct (_uniforms p !! name) as [uniform|]; [|by intros [= <- _ _]].
      unfold call_uniform_function. run_method.
      destruct (function uniform).
      * destruct data as [|v0 [|v1 [|v2 [|v3 [|v4 data]]]]];
          try (by intros [= <- _ _]).
        destruct (cdecl drv); [|by intros [= <- _ _]].
        destruct (forallb (passes_untyped drv) (v4 :: data));
          by intros [= <- _ _].
      * destruct (16 <? length data)%nat; by intros [= <- _ _].
Qed.

End Objects.

(** C7, as the claim states it, fails: a second [compile] stores a new
    handle, so the handle is neither set once nor the same for the rest of
    the life of the shader. *)
Lemma shader_handle_reset :
  Shader_init (py "void main(){}") (py "vertex") (py "2.0") true
  = Ok example_shader
  /\ sid_reads (GLfloat := Q) counting_driver
       [ReadSid; DoCompile; ReadSid; ReadSid; DoCompile; ReadSid]
       (example_shader, empty_world)
     = [Raise (NameError (py "Shader hasn't been created yet."));
        Ok 1%Z; Ok 1%Z; Ok 7%Z].
Proof. split; vm_compute; reflexivity. Qed.

Lemma shader_handle_lifecycle_witness :
  let once := fst (compile (GLfloat := Q) counting_driver
                           (example_shader, empty_world)) in
  let twice := fst (compile (GLfloat := Q) counting_driver once) in
  sid example_shader
  = Raise (NameError (py "Shader hasn't been created yet."))
  /\ (exists shader_type,
        _supported_shader_types !! kind (fst once) = Some shader_type
        /\ 7%Z = answer (GLfloat := Q) counting_driver (gl_calls (snd once))
                        (glCreateShader shader_type))
  /\ sid (fst twice) = Ok 7%Z
  /\ Forall (fun r => r = Ok 7%Z)
        (sid_reads counting_driver [ReadSid; ReadSid]
                   (fst twice, snd twice)).
Proof.
  cbv zeta.
  apply (shader_handle_lifecycle counting_driver (py "void main(){}")
           (py "vertex") (py "2.0") true example_shader).
  - vm_compute. reflexivity.
  - vm_compute. reflexivity.
  - vm_compute. reflexivity.
  - discriminate.
  - repeat constructor.
Defined.

Lemma uniform_round_trip_witness :
  let location := 2%Z in
  update_uniform 0%Q counting_driver (py "fill_color")
                 [1%Q; (1 # 2)%Q; 0%Q; 1%Q] example_program
  = ((fst example_program,
      {| gl_calls :=
           gl_calls (snd example_program)
           ++ [glUniform4f location 1%Q (1 # 2)%Q 0%Q 1%Q];
         stdout := [] |}),
     Ok tt)
  /\ update_uniform 0%Q counting_driver (py "missing") [] example_program
     = (example_program, Raise (KeyError (py "missing"))).
Proof.
  cbv zeta.
  destruct (uniform_round_trip 0%Q counting_driver
              (fst (ShaderProgram_init (GLfloat := Q) counting_driver
                                       empty_world))
              (snd (ShaderProgram_init (GLfloat := Q) counting_driver
                                       empty_world))
              1%Q (1 # 2)%Q 0%Q 1%Q (py "missing") [])
    as (Hadd & Hupdate & Hmissing).
  - discriminate.
  - vm_compute. reflexivity.
  - split; [exact Hupdate | exact Hmissing].
Defined.

(** C9, as the claim states it, fails: a log that is not UTF-8 text makes
    [compile] raise [UnicodeDecodeError], and a negative length of the
    log makes it raise [ValueError]; nothing is printed. *)
Lemma compile_raises_on_log :
  snd (compile (GLfloat := Q) (logging_driver 2 [255; 0])
               (example_shader, empty_world))
  = Raise UnicodeDecodeError
  /\ stdout (snd (fst (compile (GLfloat := Q) (logging_driver 2 [255; 0])
                              (example_shader, empty_world)))) = []
  /\ snd (compile (GLfloat := Q) (logging_driver (-1) [])
                  (example_shader, empty_world))
     = Raise ValueError.
Proof. repeat split; vm_compute; reflexivity. Qed.

Lemma compile_reports_and_continues_witness :
  exists w',
    compile (GLfloat := Q) chatty_driver (example_shader, empty_world)
    = (({| kind := py "vertex"; _id := Some 1%Z;
           source := source example_shader |}, w'), Ok tt)
    /\ stdout w' = [source example_shader; py "No errors"].
Proof.
  apply (compile_reports_and_continues chatty_driver example_shader
           empty_world GL_VERTEX_SHADER (source example_shader)
           (py "No errors")).
  - vm_compute. reflexivity.
  - vm_compute. reflexivity.
  - vm_compute. discriminate.
  - vm_compute. reflexivity.
Defined.

Lemma failed_uniform_call_keeps_bindings_witness :
  add_uniform counting_driver (py "normal") (py "vec3") example_program
  = (example_program, Raise (KeyError (py "vec3")))
  /\ update_uniform 0%Q counting_driver (py "normal") [] example_program
     = (example_program, Raise (KeyError (py "normal")))
  /\ _uniforms (fst example_program) !! py "fill_color"
     = Some {| name := py "fill_color"; uid := 2%Z; function := _uvec4 |}.
Proof.
  destruct (failed_uniform_call_keeps_bindings 0%Q counting_driver
              (fst example_program) (snd example_program) (py "normal"))
    as (Hadd & Hupdate & _).
  split; [|split].
  - apply (Hadd (py "vec3")). vm_compute. reflexivity.
  - apply (Hupdate []). vm_compute. reflexivity.
  - vm_compute. reflexivity.
Defined.

(** * More on the preprocessor *)

Section PreprocessorMore.

Implicit Types (shader_source shader_type open_gl_version : str).

(** The header line and the body as [preprocess_shader] builds them. *)
Lemma preprocess_shader_unfold shader_source shader_type open_gl_version :
  preprocess_shader shader_source shader_type open_gl_version
  = match GLSL_VERSIONS !! open_gl_version with
    | None => Raise (KeyError open_gl_version)
    | Some token =>
        let header := py "#version " ++ format_int token ++ [LF] in
        let body patterns :=
          concat (map (fun line => rewrite_line patterns line ++ [LF])
                      (split LF shader_source)) in
        if contains (py "#version") shader_source then Ok shader_source
        else if (token <? 130)%Z then Ok (header ++ shader_source)
        else if bool_decide (shader_type = py "vertex")
        then Ok (header ++ body vertex_patterns)
        else if bool_decide (shader_type = py "fragment")
        then Ok (header ++ py "out vec4 _fragColor;"
                 ++ body fragment_patterns)
        else Raise (TypeError (py "Cannot preprocess " ++ shader_type
                               ++ py " shader."))
    end.
Proof.
  unfold preprocess_shader.
  destruct (GLSL_VERSIONS !! open_gl_version) as [token|]; [|done].
  cbv zeta. rewrite !rewrite_lines_concat.
  by rewrite <- !app_assoc.
Qed.

Lemma contains_header (token : Z) (rest : str) :
  contains (py "#version")
           ((py "#version " ++ format_int token ++ [LF]) ++ rest) = true.
Proof. reflexivity. Qed.

Lemma preprocess_shader_Ok_versioned shader_source shader_type
    open_gl_version (out : str) :
  preprocess_shader shader_source shader_type open_gl_version = Ok out ->
  contains (py "#version") out = true.
Proof.
  rewrite preprocess_shader_unfold.
  destruct (GLSL_VERSIONS !! open_gl_version) as [token|]; [|done].
  cbv zeta.
  destruct (contains (py "#version") shader_source) eqn:Hsrc;
    [by intros [= <-]|].
  destruct (token <? 130)%Z; [intros [= <-]; apply contains_header|].
  destruct (bool_decide (shader_type = py "vertex"));
    [intros [= <-]; apply contains_header|].
  destruct (bool_decide (shader_type = py "fragment"));
    [intros [= <-]; apply contains_header | done].
Qed.

(** Preprocessing is idempotent: what [preprocess_shader] returned is
    returned unchanged when it is preprocessed again, for any shader type
    and any version label of the table, since every output carries a
    version marker. *)
Theorem preprocess_shader_idempotent shader_source shader_type
    open_gl_version (out : str) (shader_type' open_gl_version' : str) :
  preprocess_shader shader_source shader_type open_gl_version = Ok out ->
  is_Some (GLSL_VERSIONS !! open_gl_version') ->
  preprocess_shader out shader_type' open_gl_version' = Ok out.
Proof.
  intros Hout [token' Hv']. apply preprocess_shader_Ok_versioned in Hout.
  unfold preprocess_shader. by rewrite Hv', Hout.
Qed.

Lemma preprocess_shader_idempotent_witness :
  preprocess_shader
    (py "#version 120" ++ [LF] ++ py "varying vec4 texture;")
    (py "fragment") (py "4.5")
  = Ok (py "#version 120" ++ [LF] ++ py "varying vec4 texture;").
Proof.
  apply (preprocess_shader_idempotent (py "varying vec4 texture;")
           (py "geometry") (py "2.1")).
  - vm_compute. reflexivity.
  - exists 450%Z. vm_compute. reflexivity.
Defined.

(** The exceptions of [preprocess_shader], all of them: [KeyError] for a
    label that is not in the table, and [TypeError] for a shader type
    other than ['vertex'] and ['fragment'] when the token is 130 or more
    and the source has no version marker. *)
Theorem preprocess_shader_raises_iff shader_source shader_type
    open_gl_version (e : exn) :
  preprocess_shader shader_source shader_type open_gl_version = Raise e
  <-> (GLSL_VERSIONS !! open_gl_version = None
       /\ e = KeyError open_gl_version)
      \/ (exists token,
            GLSL_VERSIONS !! open_gl_version = Some token
            /\ (130 <= token)%Z
            /\ contains (py "#version") shader_source = false
            /\ shader_type <> py "vertex"
            /\ shader_type <> py "fragment"
            /\ e = TypeError (py "Cannot preprocess " ++ shader_type
                              ++ py " shader.")).
Proof.
  rewrite preprocess_shader_unfold. split.
  - destruct (GLSL_VERSIONS !! open_gl_version) as [token|];
      [|intros [= <-]; by left].
    cbv zeta. destruct (contains (py "#version") shader_source); [done|].
    destruct (Z.ltb_spec token 130); [done|].
    case_bool_decide; [done|]. case_bool_decide; [done|].
    intros [= <-]. right. by exists token.
  - intros [[-> ->] | (token & -> & Htok & -> & Hvert & Hfrag & ->)];
      [done|].
    cbv zeta. destruct (Z.ltb_spec token 130); [lia|].
    by rewrite !bool_decide_eq_false_2.
Qed.

Lemma uint_chars_digits (u : Decimal.uint) :
  Forall (fun c => 48 <= c <= 57) (uint_chars u).
Proof.
  induction u; cbn; constructor; try done; unfold digit_char; lia.
Qed.

Lemma format_int_free (z : Z) : LF ∉ format_int z.
Proof.
  intros Hin. destruct z as [|p|p]; cbn in Hin.
  - apply list_elem_of_singleton in Hin. discriminate.
  - pose proof (uint_chars_digits (Pos.to_uint p)) as Hd.
    rewrite Forall_forall in Hd. apply Hd in Hin. unfold LF in Hin. lia.
  - apply elem_of_cons in Hin as [Hin|Hin]; [discriminate|].
    pose proof (uint_chars_digits (Pos.to_uint p)) as Hd.
    rewrite Forall_forall in Hd. apply Hd in Hin. unfold LF in Hin. lia.
Qed.

Lemma version_line_free (token : Z) : LF ∉ py "#version " ++ format_int token.
Proof.
  intros Hin. apply elem_of_app in Hin as [Hin|Hin].
  - revert Hin. by apply (bool_decide_unpack _).
  - by apply format_int_free in Hin.
Qed.

(** The version directive is the first line of every output that was
    not returned untouched: the output of a source without a version
    marker splits into ["#version <token>"] and the lines after it. *)
Theorem preprocess_shader_first_line shader_source shader_type
    open_gl_version (token : Z) (out : str) :
  GLSL_VERSIONS !! open_gl_version = Some token ->
  contains (py "#version") shader_source = false ->
  preprocess_shader shader_source shader_type open_gl_version = Ok out ->
  exists rest,
    out = py "#version " ++ format_int token ++ [LF] ++ rest
    /\ split LF out = (py "#version " ++ format_int token) :: split LF rest.
Proof.
  intros Hv Hsrc. rewrite preprocess_shader_unfold, Hv. cbv zeta.
  rewrite Hsrc. intros Hout.
  assert (exists rest, out = (py "#version " ++ format_int token)
                             ++ LF :: rest) as [rest ->].
  { destruct (token <? 130)%Z;
      [|destruct (bool_decide (shader_type = py "vertex"));
        [|destruct (bool_decide (shader_type = py "fragment")); [|done]]];
      injection Hout as <-; eexists; rewrite <- !app_assoc; reflexivity. }
  exists rest. split; [by rewrite <- !app_assoc|].
  apply split_terminated, version_line_free.
Qed.

Lemma preprocess_shader_first_line_witness :
  exists rest,
    py "#version 330" ++ [LF] ++ py "in vec3 position;" ++ [LF]
    = py "#version " ++ format_int 330 ++ [LF] ++ rest
    /\ split LF (py "#version 330" ++ [LF] ++ py "in vec3 position;" ++ [LF])
       = (py "#version " ++ format_int 330) :: split LF rest.
Proof.
  apply (preprocess_shader_first_line (py "attribute vec3 position;")
           (py "vertex") (py "3.3")).
  - vm_compute. reflexivity.
  - vm_compute. reflexivity.
  - vm_compute. reflexivity.
Defined.

(** For a fragment shader that is rewritten, [out vec4 _fragColor;] is
    not a line of its own: the second line of the output is the
    declaration followed by the rewritten first line of the source. *)
Theorem preprocess_shader_fragment_second_line shader_source
    open_gl_version (token : Z) :
  GLSL_VERSIONS !! open_gl_version = Some token ->
  (130 <= token)%Z ->
  contains (py "#version") shader_source = false ->
  exists out first lines,
    preprocess_shader shader_source (py "fragment") open_gl_version = Ok out
    /\ split LF shader_source = first :: lines
    /\ split LF out
       = (py "#version " ++ format_int token)
         :: (py "out vec4 _fragColor;" ++ rewrite_line fragment_patterns first)
         :: map (rewrite_line fragment_patterns) lines ++ [[]].
Proof.
  intros Hv Htok Hsrc. rewrite preprocess_shader_unfold, Hv. cbv zeta.
  rewrite Hsrc. destruct (Z.ltb_spec token 130); [lia|].
  cbn [bool_decide]. rewrite bool_decide_eq_false_2 by discriminate.
  rewrite bool_decide_eq_true_2 by done.
  pose proof (split_nonempty LF shader_source) as Hne.
  pose proof (split_free LF shader_source) as Hfree.
  destruct (split LF shader_source) as [|first lines]; [done|].
  inversion Hfree as [|? ? Hfirst Hlines]; subst.
  eexists _, first, lines. split; [reflexivity|]. split; [reflexivity|].
  set (decl := py "out vec4 _fragColor;").
  set (f := fun line => rewrite_line fragment_patterns line ++ [LF]).
  assert (Hdecl : LF ∉ decl ++ rewrite_line fragment_patterns first).
  { intros Hin. apply elem_of_app in Hin as [Hin|Hin].
    - revert Hin. by apply (bool_decide_unpack _).
    - revert Hin. apply rewrite_line_free;
        [apply fragment_patterns_free | done]. }
  replace ((py "#version " ++ format_int token ++ [LF]) ++ decl
           ++ concat (map f (first :: lines)))
    with ((py "#version " ++ format_int token)
          ++ LF :: (decl ++ rewrite_line fragment_patterns first)
          ++ LF :: concat (map f lines))
    by (subst f; cbn [map concat]; rewrite <- !app_assoc; reflexivity).
  rewrite split_terminated by apply version_line_free.
  rewrite split_terminated by exact Hdecl.
  do 2 f_equal. subst f.
  rewrite <- (map_map (rewrite_line fragment_patterns)
                      (fun line => line ++ [LF])).
  apply split_terminated_lines, Forall_map.
  eapply Forall_impl; [exact Hlines|]. intros line Hline. cbv beta.
  apply rewrite_line_free; [apply fragment_patterns_free | done].
Qed.

Lemma preprocess_shader_fragment_second_line_witness :
  exists out first lines,
    preprocess_shader (py "#define N 4") (py "fragment") (py "3.3") = Ok out
    /\ split LF (py "#define N 4") = first :: lines
    /\ split LF out
       = (py "#version " ++ format_int 330)
         :: (py "out vec4 _fragColor;" ++ rewrite_line fragment_patterns first)
         :: map (rewrite_line fragment_patterns) lines ++ [[]].
Proof.
  apply (preprocess_shader_fragment_second_line (py "#define N 4")
           (py "3.3") 330%Z).
  - vm_compute. reflexivity.
  - lia.
  - vm_compute. reflexivity.
Defined.

End PreprocessorMore.

(** * What a substitution replaces, and what it leaves *)

Section Matches.

Implicit Types (re : regex) (search replace line : str).

Lemma call_follows_paren (s : str) : call_follows s = true -> 40 ∈ s.
Proof.
  induction s as [|c s IH]; [done|]. cbn.
  intros H. apply orb_true_iff in H as [H|H].
  - apply N.eqb_eq in H. subst c. by left.
  - apply andb_true_iff in H as [_ H]. right. by apply IH.
Qed.

(** Every word a substitution replaces is a whole token in the right
    position: one of the alternatives, with no word character before it,
    and after it, for an identifier, no word character and no opening
    parenthesis behind white space, for a function name, such a
    parenthesis. *)
Theorem re_sub_replaces_matches re search replace line
    (before after : list piece) (alt : str) :
  scan re search None O line = before ++ Hit alt :: after ->
  let pre := concat (map original before) in
  let post := concat (map original after) in
  line = pre ++ alt ++ post
  /\ re_sub re search replace line
     = concat (map (replaced replace) before) ++ replace
       ++ concat (map (replaced replace) after)
  /\ alt ∈ alternatives search
  /\ (forall c, last pre = Some c -> is_word c = false)
  /\ match re with
     | re_id => word_follows post = false /\ call_follows post = false
     | re_fn => call_follows post = true
     end.
Proof.
  intros Hscan pre post.
  pose proof (scan_original re search None O line) as Horig.
  change (drop 0 line) with line in Horig.
  pose proof (scan_hit_context _ _ _ _ _ _ _ _ Hscan) as [Hb Ha].
  split; [|split; [|split; [|split]]].
  - rewrite Hscan, map_app, concat_app in Horig. by rewrite <- Horig.
  - unfold re_sub. by rewrite Hscan, map_app, concat_app.
  - apply (scan_hit re search None O line). rewrite Hscan.
    apply elem_of_app. right. by left.
  - intros c Hc. change (lookbehind (last pre) = true) in Hb.
    rewrite Hc in Hb. by apply negb_true_iff in Hb.
  - fold post in Ha. destruct re; cbn in Ha; [|done].
    by apply negb_true_iff, orb_false_iff in Ha.
Qed.

Lemma re_sub_replaces_matches_witness :
  py "vec4 texture; texture2D(t)"
  = py "vec4 " ++ py "texture" ++ py "; texture2D(t)"
  /\ re_sub re_id (py "texture") (py "texMap")
            (py "vec4 texture; texture2D(t)")
     = py "vec4 " ++ py "texMap" ++ py "; texture2D(t)".
Proof.
  destruct (re_sub_replaces_matches re_id (py "texture") (py "texMap")
              (py "vec4 texture; texture2D(t)")
              (map Keep (py "vec4 ")) (map Keep (py "; texture2D(t)"))
              (py "texture"))
    as (Hline & Hsub & _).
  - vm_compute. reflexivity.
  - split; [exact Hline | exact Hsub].
Defined.

(** Every character a substitution copies is one where the expression
    does not match: the matches are found from the left, none is passed
    over. *)
Theorem re_sub_copies_non_matches re search line
    (before after : list piece) (c : N) :
  scan re search None O line = before ++ Keep c :: after ->
  let pre := concat (map original before) in
  let post := concat (map original after) in
  line = pre ++ c :: post
  /\ match_here re search (last pre) (c :: post) = None.
Proof.
  intros Hscan pre post.
  pose proof (scan_original re search None O line) as Horig.
  change (drop 0 line) with line in Horig.
  split.
  - rewrite Hscan, map_app, concat_app in Horig. by rewrite <- Horig.
  - apply (scan_keep_context _ _ _ _ _ _ _ _ Hscan).
Qed.

Lemma re_sub_copies_non_matches_witness :
  py "mytexture;" = py "my" ++ 116 :: py "exture;"
  /\ match_here re_id (py "texture") (last (py "my"))
                (116 :: py "exture;") = None.
Proof.
  apply (re_sub_copies_non_matches re_id (py "texture") (py "mytexture;")
           (map Keep (py "my")) (map Keep (py "exture;")) 116).
  vm_compute. reflexivity.
Defined.

(** The rule for function names changes no line without an opening
    parenthesis. *)
Theorem re_fn_needs_parenthesis search replace line :
  40 ∉ line -> re_sub re_fn search replace line = line.
Proof.
  intros Hparen. apply re_sub_no_match. unfold re_matches.
  destruct (existsb is_hit (scan re_fn search None O line)) eqn:E; [|done].
  apply existsb_exists in E as ([c|alt] & Hin & Hhit); [done|].
  apply list_elem_of_In, list_elem_of_split in Hin as (before & after & Hscan).
  pose proof (scan_original re_fn search None O line) as Horig.
  change (drop 0 line) with line in Horig.
  apply scan_hit_context in Hscan as Hctx. destruct Hctx as [_ Ha].
  cbn in Ha. apply call_follows_paren in Ha.
  rewrite Hscan, map_app, concat_app in Horig. cbn in Horig.
  exfalso. apply Hparen. rewrite <- Horig.
  apply elem_of_app. right. apply elem_of_app. by right.
Qed.

Lemma re_fn_needs_parenthesis_witness :
  re_sub re_fn (py "texture2DRect|texture2D|texture3D|textureCube")
         (py "texture") (py "uniform sampler2D texture2D;")
  = py "uniform sampler2D texture2D;".
Proof.
  apply re_fn_needs_parenthesis. by apply (bool_decide_unpack _).
Defined.

End Matches.

(** * The default shaders and the printed numbers *)

Section Defaults.

(** The default shaders are portable: for every version of the table
    they are preprocessed without an exception; below 130 they only get
    the version line, from 130 on [attribute] becomes [in] in the vertex
    shader and [gl_FragColor] becomes the declared [_fragColor] in the
    fragment shader, and nothing else changes. *)
Theorem default_shaders_preprocess (open_gl_version : str) (token : Z) :
  GLSL_VERSIONS !! open_gl_version = Some token ->
  let header := py "#version " ++ format_int token ++ [LF] in
  preprocess_shader vertex_default (py "vertex") open_gl_version
  = Ok (header
        ++ if (token <? 130)%Z then vertex_default
           else join [LF]
                  (map py
                     [ ""; "in vec3 position;"; ""; "uniform mat4 transform;";
                       "uniform mat4 modelview;"; "uniform mat4 projection;";
                       ""; "void main()"; "{";
                       "    gl_Position = projection * modelview * transform * vec4(position, 1.0);";
                       "}"; ""; "" ]%string))
  /\ preprocess_shader fragment_default (py "fragment") open_gl_version
     = Ok (header
           ++ if (token <? 130)%Z then fragment_default
              else py "out vec4 _fragColor;"
                   ++ join [LF]
                        (map py
                           [ ""; "uniform vec4 fill_color;"; "";
                             "void main()"; "{";
                             "    _fragColor = fill_color;"; "}"; "";
                             "" ]%string)).
Proof.
  intros Hv header. rewrite !preprocess_shader_unfold, Hv. cbv zeta.
  replace (contains (py "#version") vertex_default) with false
    by (vm_compute; reflexivity).
  replace (contains (py "#version") fragment_default) with false
    by (vm_compute; reflexivity).
  destruct (token <? 130)%Z; [done|].
  split; cbn [bool_decide]; repeat f_equal; vm_compute; reflexivity.
Qed.

Lemma default_shaders_preprocess_witness :
  preprocess_shader vertex_default (py "vertex") (py "2.0")
  = Ok ((py "#version " ++ format_int 110 ++ [LF]) ++ vertex_default).
Proof.
  apply (default_shaders_preprocess (py "2.0") 110%Z).
  vm_compute. reflexivity.
Defined.

Lemma uint_chars_inj (u v : Decimal.uint) :
  uint_chars u = uint_chars v -> u = v.
Proof.
  revert v. induction u as [|u IH|u IH|u IH|u IH|u IH|u IH|u IH|u IH|u IH|u IH];
    intros [|v|v|v|v|v|v|v|v|v|v] H; cbn in H; try discriminate;
    try reflexivity; injection H as H; f_equal; by apply IH.
Qed.

Lemma to_uint_not_zero (p : positive) :
  uint_chars (Pos.to_uint p) <> py "0".
Proof.
  intros H. apply (uint_chars_inj _ (Decimal.D0 Decimal.Nil)) in H.
  pose proof (Unsigned.of_to p) as Hp. rewrite H in Hp. discriminate.
Qed.

Lemma to_uint_not_minus (p : positive) (s : str) :
  uint_chars (Pos.to_uint p) <> 45 :: s.
Proof.
  intros H. pose proof (uint_chars_digits (Pos.to_uint p)) as Hd.
  rewrite H in Hd. inversion Hd as [|? ? Hc _]. lia.
Qed.

(** The decimal text of a number tells the number. *)
Lemma format_int_inj (z z' : Z) : format_int z = format_int z' -> z = z'.
Proof.
  destruct z as [|p|p], z' as [|q|q]; cbn; intros H; try done.
  - symmetry in H. by apply to_uint_not_zero in H.
  - by apply to_uint_not_zero in H.
  - apply uint_chars_inj, Unsigned.to_uint_inj in H. by subst.
  - by apply to_uint_not_minus in H.
  - symmetry in H. by apply to_uint_not_minus in H.
  - injection H as H.
    apply uint_chars_inj, Unsigned.to_uint_inj in H. by subst.
Qed.

(** The text [__repr__] prints tells the programs apart by their ids: two
    programs with the same text have the same [pid]; and the text is
    ["ShaderProgram( pid=<pid>)"]. *)
Theorem repr_tells_pid (this other : ShaderProgram) :
  __repr__ this = __repr__ other -> pid this = pid other.
Proof.
  unfold __repr__. intros H.
  apply app_inv_head, app_inv_head, app_inv_tail in H.
  by apply format_int_inj.
Qed.

Lemma repr_tells_pid_witness :
  pid {| pid := 1; _uniforms := ∅ |} = pid (fst example_program).
Proof.
  apply repr_tells_pid. vm_compute. reflexivity.
Defined.

End Defaults.

(** * More on shaders *)

Section ShaderMore.

Context {GLfloat : Type} (drv : @driver GLfloat).

Implicit Types (w : @world GLfloat) (sh : Shader).

Lemma supported_kinds (kind : str) :
  _supported_shader_types !! kind = None
  <-> kind <> py "vertex" /\ kind <> py "fragment".
Proof.
  unfold _supported_shader_types. cbn [list_to_map foldr uncurry].
  rewrite !lookup_insert_None, lookup_empty. cbn [fst]. split.
  - intros [[_ Hf] Hv]. split; congruence.
  - intros [Hv Hf]. repeat split; congruence.
Qed.

(** UTF-8 encodes ASCII text as itself. *)
Lemma encode_ascii (s : str) : Forall (fun c => c < 128) s -> encode s = Ok s.
Proof.
  induction 1 as [|c s Hc _ IH]; [done|]. cbn. rewrite IH.
  unfold encode_char. by destruct (N.ltb_spec c 128); [|lia].
Qed.

Lemma re_sub_Forall (P : N -> Prop) (re : regex) (search replace line : str) :
  Forall P line -> Forall P replace ->
  Forall P (re_sub re search replace line).
Proof.
  intros Hline Hrep. unfold re_sub. apply Forall_concat, Forall_map.
  apply Forall_forall. intros [c|alt] Hin; cbn.
  - apply scan_keep in Hin. rewrite Forall_forall in Hline.
    constructor; [by apply Hline | constructor].
  - exact Hrep.
Qed.

Lemma rewrite_line_Forall (P : N -> Prop) (patterns : list pattern)
    (line : str) :
  Forall (fun '(_, _, replace) => Forall P replace) patterns ->
  Forall P line -> Forall P (rewrite_line patterns line).
Proof.
  unfold rewrite_line. intros Hpat. revert line.
  induction Hpat as [|[[re search] replace] patterns Hrep _ IH];
    intros line Hline; [done|].
  cbn [fold_left]. apply IH. by apply re_sub_Forall.
Qed.

Lemma split_Forall (P : N -> Prop) (sep : N) (s : str) :
  Forall P s -> Forall (Forall P) (split sep s).
Proof.
  induction 1 as [|c s Hc _ IH]; cbn; [by repeat constructor|].
  destruct (c =? sep); [by constructor|].
  destruct (split sep s) as [|piece pieces]; [by repeat constructor|].
  inversion IH; subst. constructor; [by constructor | done].
Qed.

Lemma body_Forall (P : N -> Prop) (patterns : list pattern) (s : str) :
  Forall (fun '(_, _, replace) => Forall P replace) patterns ->
  P LF -> Forall P s ->
  Forall P (concat (map (fun line => rewrite_line patterns line ++ [LF])
                        (split LF s))).
Proof.
  intros Hpat HLF Hs. apply Forall_concat, Forall_map.
  eapply Forall_impl; [by apply split_Forall|]. intros line Hline. cbv beta.
  apply Forall_app_2; [by apply rewrite_line_Forall|].
  by repeat constructor.
Qed.

Lemma format_int_ascii (z : Z) : Forall (fun c => 0 < c < 128) (format_int z).
Proof.
  assert (Hd : forall p, Forall (fun c => 0 < c < 128)
                                (uint_chars (Pos.to_uint p))).
  { intros p. eapply Forall_impl; [apply uint_chars_digits|].
    intros c Hc. cbv beta in *. lia. }
  destruct z as [|p|p]; cbn.
  - by repeat constructor.
  - apply Hd.
  - constructor; [done | apply Hd].
Qed.

(** Preprocessing brings nothing but ASCII, and no NUL, into a source of
    ASCII without NUL. *)
Lemma preprocess_shader_ascii (shader_source shader_type version out : str) :
  Forall (fun c => 0 < c < 128) shader_source ->
  preprocess_shader shader_source shader_type version = Ok out ->
  Forall (fun c => 0 < c < 128) out.
Proof.
  intros Hsrc. rewrite preprocess_shader_unfold.
  destruct (GLSL_VERSIONS !! version) as [token|]; [|done]. cbv zeta.
  assert (Hh : Forall (fun c => 0 < c < 128)
                      (py "#version " ++ format_int token ++ [LF])).
  { apply Forall_app_2; [by apply (bool_decide_unpack _)|].
    apply Forall_app_2; [apply format_int_ascii|].
    by repeat constructor. }
  assert (Hd : Forall (fun c => 0 < c < 128) (py "out vec4 _fragColor;"))
    by apply (bool_decide_unpack _), I.
  assert (Hv : Forall (fun '(_, _, replace) =>
                         Forall (fun c => 0 < c < 128) replace)
                      vertex_patterns).
  { repeat (apply Forall_cons; split); try apply Forall_nil;
      by apply (bool_decide_unpack _). }
  assert (Hf : Forall (fun '(_, _, replace) =>
                         Forall (fun c => 0 < c < 128) replace)
                      fragment_patterns).
  { repeat (apply Forall_cons; split); try apply Forall_nil;
      by apply (bool_decide_unpack _). }
  remember (py "#version " ++ format_int token ++ [LF]) as header.
  remember (py "out vec4 _fragColor;") as declaration.
  assert (Ok_inj : forall a b : str, Ok a = Ok b -> a = b) by congruence.
  destruct (contains (py "#version") shader_source);
    [intros Hout; apply Ok_inj in Hout; by subst out|].
  destruct (token <? 130)%Z;
    [intros Hout; apply Ok_inj in Hout; subst out; by apply Forall_app_2|].
  destruct (bool_decide (shader_type = py "vertex")).
  { intros Hout; apply Ok_inj in Hout; subst out.
    apply Forall_app_2; [done|]. by apply body_Forall. }
  destruct (bool_decide (shader_type = py "fragment")); [|done].
  intros Hout; apply Ok_inj in Hout; subst out. apply Forall_app_2; [done|].
  apply Forall_app_2; [done|]. by apply body_Forall.
Qed.

(** Text without NUL reaches C whole. *)
Lemma until_nul_whole (bytes : list N) :
  Forall (fun b => 0 < b) bytes -> until_nul bytes = bytes.
Proof.
  induction 1 as [|b bytes Hb _ IH]; [done|]. cbn.
  destruct (N.eqb_spec b 0); [lia|]. by rewrite IH.
Qed.

(** A vertex or fragment shader made from ASCII text without NUL for a
    version of the table is constructed without an exception, with or
    without preprocessing.  Whatever the driver answers, [compile] then
    stores the handle, hands the driver the stored source, byte for
    character, and has it compiled; if it raises, it does so reading the
    info log: [ValueError] for a negative length, [UnicodeDecodeError]
    for a log that is not UTF-8. *)
Theorem ascii_shader_compiles (shader_source shader_kind version : str)
    (preprocess : bool) w :
  Forall (fun c => 0 < c < 128) shader_source ->
  shader_kind = py "vertex" \/ shader_kind = py "fragment" ->
  is_Some (GLSL_VERSIONS !! version) ->
  exists sh shader_type,
    Shader_init shader_source shader_kind version preprocess = Ok sh
    /\ _supported_shader_types !! shader_kind = Some shader_type
    /\ let id := answer drv (gl_calls w) (glCreateShader shader_type) in
       let after := compile drv (sh, w) in
       fst (fst after)
       = {| kind := shader_kind; _id := Some id; source := source sh |}
       /\ (gl_calls w
           ++ [glCreateShader shader_type; glShaderSource id 1 (source sh);
               glCompileShader id]) `prefix_of` gl_calls (snd (fst after))
       /\ forall e,
            snd after = Raise e -> e = ValueError \/ e = UnicodeDecodeError.
Proof.
  intros Hascii Hkind [token Hv].
  assert (exists sh,
             Shader_init shader_source shader_kind version preprocess = Ok sh
             /\ kind sh = shader_kind
             /\ Forall (fun c => 0 < c < 128) (source sh))
    as (sh & Hinit & Hk & Hsrc).
  { unfold Shader_init. destruct preprocess; [|by eexists].
    destruct (preprocess_shader shader_source shader_kind version)
      as [out|e] eqn:E.
    - eexists. split; [done|]. split; [done|]. cbn.
      by eapply preprocess_shader_ascii.
    - exfalso. rewrite preprocess_shader_unfold, Hv in E. cbv zeta in E.
      destruct (contains (py "#version") shader_source); [done|].
      destruct (token <? 130)%Z; [done|].
      destruct Hkind as [-> | ->]; [by rewrite bool_decide_eq_true_2 in E|].
      rewrite bool_decide_eq_false_2 in E by discriminate.
      by rewrite bool_decide_eq_true_2 in E. }
  assert (exists shader_type, _supported_shader_types !! shader_kind
                              = Some shader_type) as [shader_type Hty].
  { destruct Hkind as [-> | ->]; eexists; vm_compute; reflexivity. }
  assert (Henc : encode (source sh) = Ok (source sh)).
  { apply encode_ascii. eapply Forall_impl; [exact Hsrc|].
    intros c Hc. cbv beta in *. lia. }
  assert (Hnul : until_nul (source sh) = source sh).
  { apply until_nul_whole. eapply Forall_impl; [exact Hsrc|].
    intros c Hc. cbv beta in *. lia. }
  exists sh, shader_type. split; [exact Hinit|].
  split; [exact Hty|]. cbv zeta. rewrite <- Hk in Hty.
  rewrite (compile_supported drv sh w shader_type (source sh) Hty Henc).
  cbv zeta. rewrite Hnul, Hk.
  set (id := answer drv (gl_calls w) (glCreateShader shader_type)).
  assert (Hpre : forall more,
             (gl_calls w
              ++ [glCreateShader shader_type;
                  glShaderSource id 1 (source sh); glCompileShader id])
             `prefix_of`
             (gl_calls w
              ++ [glCreateShader shader_type;
                  glShaderSource id 1 (source sh); glCompileShader id;
                  glGetShaderiv id GL_COMPILE_STATUS]) ++ more).
  { intros more. exists (glGetShaderiv id GL_COMPILE_STATUS :: more).
    by rewrite <- !app_assoc. }
  destruct (create_string_buffer _) as [buffer|e'] eqn:Hb.
  - destruct (decode _) as [log_message|e'] eqn:Hd; cbn [fst snd gl_calls].
    + split; [done|]. split; [|done]. rewrite <- app_assoc. apply Hpre.
    + split; [done|]. split; [rewrite <- app_assoc; apply Hpre|].
      intros e [= <-]. apply decode_Raise in Hd. auto.
  - cbn [fst snd gl_calls]. split; [done|]. split; [apply Hpre|].
    intros e [= <-]. apply create_string_buffer_Raise in Hb. auto.
Qed.

End ShaderMore.

Lemma ascii_shader_compiles_witness :
  exists (sh : Shader) (shader_type : Z),
    Shader_init fragment_default (py "fragment") (py "3.3") true = Ok sh
    /\ _supported_shader_types !! py "fragment" = Some shader_type
    /\ fst (fst (compile (GLfloat := Q) chatty_driver (sh, empty_world)))
       = {| kind := py "fragment";
            _id := Some (answer (GLfloat := Q) chatty_driver []
                                (glCreateShader shader_type));
            source := source sh |}.
Proof.
  destruct (ascii_shader_compiles (GLfloat := Q) chatty_driver
              fragment_default (py "fragment") (py "3.3") true empty_world)
    as (sh & shader_type & Hinit & Hty & Hafter & _).
  - by apply (bool_decide_unpack _).
  - by right.
  - exists 330%Z. vm_compute. reflexivity.
  - exists sh, shader_type. split; [exact Hinit|]. split; [exact Hty|].
    exact Hafter.
Defined.

Section ShaderEdges.

Context {GLfloat : Type} (drv : @driver GLfloat).

Implicit Types (w : @world GLfloat) (sh : Shader).

Lemma compile_unsupported sh w :
  _supported_shader_types !! kind sh = None ->
  compile drv (sh, w) = ((sh, w), Raise (KeyError (kind sh))).
Proof. intros H. unfold compile. run_method. by rewrite H. Qed.

Lemma sid_reads_unsupported (ops : list shader_op) sh w :
  _supported_shader_types !! kind sh = None ->
  Forall (fun r => r = sid sh) (sid_reads drv ops (sh, w)).
Proof.
  intros H. induction ops as [|[|] ops IH]; cbn [sid_reads].
  - constructor.
  - by rewrite compile_unsupported.
  - by constructor.
Qed.

(** A shader of a kind other than ['vertex'] and ['fragment'] can be
    constructed but never compiled: [compile] raises [KeyError] on the
    kind before it calls OpenGL, the shader and the call log stay as they
    were, and whatever is tried, every read of [sid] raises
    [NameError]. *)
Theorem unsupported_kind_never_compiles
    (shader_source shader_kind version : str) (preprocess : bool) sh w
    (ops : list shader_op) :
  Shader_init shader_source shader_kind version preprocess = Ok sh ->
  shader_kind <> py "vertex" ->
  shader_kind <> py "fragment" ->
  compile drv (sh, w) = ((sh, w), Raise (KeyError shader_kind))
  /\ Forall (fun r => r = Raise (NameError
                                   (py "Shader hasn't been created yet.")))
            (sid_reads drv ops (sh, w)).
Proof.
  intros Hinit Hv Hf.
  assert (Hk : kind sh = shader_kind).
  { unfold Shader_init in Hinit. destruct preprocess;
      [destruct (preprocess_shader shader_source shader_kind version);
       [|done]|];
      by injection Hinit as <-. }
  assert (Hnone : _supported_shader_types !! kind sh = None)
    by (rewrite Hk; by apply supported_kinds).
  split.
  - rewrite <- Hk. by apply compile_unsupported.
  - replace (Raise (NameError (py "Shader hasn't been created yet.")))
      with (sid sh); [by apply sid_reads_unsupported|].
    unfold sid. by rewrite (Shader_init_fresh _ _ _ _ _ Hinit).
Qed.

(** When [glCreateShader] answers zero, [compile] does not raise on that
    account: it stores the zero and goes on, and whether it then returns
    or raises over the source or the info log, [sid] goes on raising
    [NameError], since zero counts as no handle. *)
Theorem compile_zero_handle sh w (shader_type : Z) :
  _supported_shader_types !! kind sh = Some shader_type ->
  answer drv (gl_calls w) (glCreateShader shader_type) = 0%Z ->
  _id (fst (fst (compile drv (sh, w)))) = Some 0%Z
  /\ sid (fst (fst (compile drv (sh, w))))
     = Raise (NameError (py "Shader hasn't been created yet."))
  /\ forall e,
       snd (compile drv (sh, w)) = Raise e ->
       e = UnicodeEncodeError \/ e = ValueError \/ e = UnicodeDecodeError.
Proof.
  intros Hkind Hzero.
  rewrite (compile_stores_handle drv sh w shader_type Hkind).
  unfold sid. cbn [_id]. rewrite Hzero. split; [done|]. split; [done|].
  intros e. destruct (encode (source sh)) as [src|e'] eqn:Hsrc.
  - rewrite (compile_supported drv sh w shader_type src Hkind Hsrc).
    cbv zeta. destruct (create_string_buffer _) as [buffer|e''] eqn:Hb.
    + destruct (decode _) as [log|e''] eqn:Hd; [done|].
      cbn. intros [= <-]. apply decode_Raise in Hd. auto.
    + cbn. intros [= <-]. apply create_string_buffer_Raise in Hb. auto.
  - unfold compile. run_method. rewrite Hkind. run_method. rewrite Hsrc.
    cbn. intros [= <-]. apply encode_Raise in Hsrc. auto.
Qed.

(** A source that UTF-8 cannot encode makes [compile] raise after the
    shader object was created: the one call made is [glCreateShader], its
    answer is stored, and [sid] returns it when it is not zero, though
    the shader has no source and was not compiled. *)
Theorem compile_unencodable_source sh w (shader_type : Z) :
  _supported_shader_types !! kind sh = Some shader_type ->
  encode (source sh) = Raise UnicodeEncodeError ->
  let id := answer drv (gl_calls w) (glCreateShader shader_type) in
  let sh' := {| kind := kind sh; _id := Some id; source := source sh |} in
  compile drv (sh, w)
  = ((sh', {| gl_calls := gl_calls w ++ [glCreateShader shader_type];
              stdout := stdout w |}),
     Raise UnicodeEncodeError)
  /\ (id <> 0%Z -> sid sh' = Ok id).
Proof.
  intros Hkind Hsrc. cbv zeta. split.
  - unfold compile. run_method. rewrite Hkind. run_method.
    by rewrite Hsrc.
  - intros Hid. unfold sid. cbn [_id].
    by destruct (Z.eqb_spec (answer drv (gl_calls w)
                               (glCreateShader shader_type)) 0).
Qed.

End ShaderEdges.

Lemma unsupported_kind_never_compiles_witness :
  compile (GLfloat := Q) counting_driver
    ({| kind := py "geometry"; _id := None; source := py "void main(){}" |},
     empty_world)
  = (({| kind := py "geometry"; _id := None; source := py "void main(){}" |},
      empty_world), Raise (KeyError (py "geometry")))
  /\ Forall (fun r => r = Raise (NameError
                                   (py "Shader hasn't been created yet.")))
       (sid_reads (GLfloat := Q) counting_driver
          [DoCompile; ReadSid; DoCompile; ReadSid]
          ({| kind := py "geometry"; _id := None;
              source := py "void main(){}" |}, empty_world)).
Proof.
  apply (unsupported_kind_never_compiles counting_driver
           (py "void main(){}") (py "geometry") (py "3.3") false).
  - reflexivity.
  - discriminate.
  - discriminate.
Defined.

Lemma compile_zero_handle_witness :
  _id (fst (fst (compile (GLfloat := Q) null_driver
                   (example_shader, empty_world)))) = Some 0%Z
  /\ sid (fst (fst (compile (GLfloat := Q) null_driver
                      (example_shader, empty_world))))
     = Raise (NameError (py "Shader hasn't been created yet.")).
Proof.
  destruct (compile_zero_handle (GLfloat := Q) null_driver example_shader
              empty_world GL_VERTEX_SHADER) as (Hid & Hsid & _).
  - vm_compute. reflexivity.
  - reflexivity.
  - split; [exact Hid | exact Hsid].
Defined.

Lemma compile_unencodable_source_witness :
  compile (GLfloat := Q) counting_driver
    ({| kind := py "vertex"; _id := None; source := [55296] |}, empty_world)
  = (({| kind := py "vertex"; _id := Some 1%Z; source := [55296] |},
      {| gl_calls := [glCreateShader GL_VERTEX_SHADER]; stdout := [] |}),
     Raise UnicodeEncodeError)
  /\ (1%Z <> 0%Z ->
      sid {| kind := py "vertex"; _id := Some 1%Z; source := [55296] |}
      = Ok 1%Z).
Proof.
  apply (compile_unencodable_source counting_driver
           {| kind := py "vertex"; _id := None; source := [55296] |}
           empty_world GL_VERTEX_SHADER).
  - vm_compute. reflexivity.
  - vm_compute. reflexivity.
Defined.

(** * More on shader programs *)

(** Unfolds a method of a program down to what it looks up. *)
Ltac run_program_method :=
  unfold add_uniform, update_uniform, attach, link, activate, deactivate,
    call_uniform_function;
  run_method.

(** Closes the case of a call that leaves the program as it was. *)
Ltac frame_same :=
  cbn [gl_calls stdout];
  split; [reflexivity|];
  split; [first [reflexivity | by apply prefix_app_r]|];
  split; [reflexivity|];
  intros ? ? ?; by left.

Section ProgramMore.

Context {GLfloat : Type} (zero : GLfloat) (drv : @driver GLfloat).

Implicit Types (w : @world GLfloat) (sh : Shader) (p : ShaderProgram).

(** A new program has the id [glCreateProgram] answered and no uniform:
    every update raises [KeyError], whatever the name, and changes
    nothing. *)
Theorem fresh_program_has_no_uniform w (uniform_name : str)
    (data : list GLfloat) :
  let st := ShaderProgram_init drv w in
  pid (fst st) = answer drv (gl_calls w) glCreateProgram
  /\ gl_calls (snd st) = gl_calls w ++ [glCreateProgram]
  /\ update_uniform zero drv uniform_name data st
     = (st, Raise (KeyError uniform_name)).
Proof.
  cbv zeta. split; [done|]. split; [done|].
  unfold ShaderProgram_init. run_program_method. by rewrite lookup_empty.
Qed.

(** Registering a uniform of a known data type under a name that can be
    encoded asks OpenGL once for the location, stores the name, the
    location and the update function under the name, and leaves every
    other binding and the id of the program as they were. *)
Theorem add_uniform_registers p w (uniform_name dtype : str)
    (f : uniform_function) (encoded : list N) :
  _uniform_function_map !! dtype = Some f ->
  encode uniform_name = Ok encoded ->
  let location :=
    answer drv (gl_calls w) (glGetUniformLocation (pid p) encoded) in
  exists p',
    add_uniform drv uniform_name dtype (p, w)
    = ((p', {| gl_calls :=
                 gl_calls w ++ [glGetUniformLocation (pid p) encoded];
               stdout := stdout w |}), Ok tt)
    /\ pid p' = pid p
    /\ _uniforms p' !! uniform_name
       = Some {| name := uniform_name; uid := location; function := f |}
    /\ forall other,
         other <> uniform_name -> _uniforms p' !! other = _uniforms p !! other.
Proof.
  intros Hf Henc. cbv zeta. run_program_method. rewrite Hf. run_method.
  eexists. rewrite Henc. split; [reflexivity|]. cbn [pid _uniforms].
  split; [done|]. split; [by rewrite lookup_insert_eq|].
  intros other Hne. by rewrite lookup_insert_ne.
Qed.

(** Registering a name again replaces its binding: after two
    registrations the map is the original one with the second binding
    only, with the location of the second query. *)
Theorem add_uniform_overwrites p w (uniform_name dtype dtype' : str)
    (f f' : uniform_function) (encoded : list N) :
  _uniform_function_map !! dtype = Some f ->
  _uniform_function_map !! dtype' = Some f' ->
  encode uniform_name = Ok encoded ->
  let st1 := fst (add_uniform drv uniform_name dtype (p, w)) in
  let st2 := fst (add_uniform drv uniform_name dtype' st1) in
  _uniforms (fst st2)
  = <[uniform_name :=
        {| name := uniform_name;
           uid := answer drv
                    (gl_calls w ++ [glGetUniformLocation (pid p) encoded])
                    (glGetUniformLocation (pid p) encoded);
           function := f' |}]> (_uniforms p).
Proof.
  intros Hf Hf' Henc. cbv zeta. run_program_method.
  rewrite Hf. run_method. rewrite Henc. run_method.
  rewrite Hf'. run_method.
  by rewrite insert_insert_eq.
Qed.

(** An update of a [mat4] uniform hands OpenGL sixteen values: the data
    followed by zeros when there are fewer; more than sixteen raise
    [IndexError] and nothing is sent. *)
Theorem update_uniform_mat4 p w (uniform_name : str) (u : ShaderUniform)
    (data : list GLfloat) :
  _uniforms p !! uniform_name = Some u ->
  function u = _umat4 ->
  if (16 <? length data)%nat
  then exists msg,
      update_uniform zero drv uniform_name data (p, w)
      = ((p, w), Raise (IndexError msg))
  else exists value,
      update_uniform zero drv uniform_name data (p, w)
      = ((p, {| gl_calls :=
                  gl_calls w ++ [glUniformMatrix4fv (uid u) 1 GL_FALSE value];
                stdout := stdout w |}), Ok tt)
      /\ length value = 16%nat
      /\ take (length data) value = data
      /\ drop (length data) value = replicate (16 - length data) zero.
Proof.
  intros Hu Hf. run_program_method. rewrite Hu, Hf.
  destruct (Nat.ltb_spec 16 (length data)); [by eexists|].
  eexists. split; [reflexivity|].
  rewrite length_app, length_replicate, take_app_length, drop_app_length.
  repeat split. lia.
Qed.

(** An update of a [vec4] uniform with other than four values: fewer
    than four raise [TypeError] and nothing is sent.  More than four
    raise [TypeError] too when the functions do not have the C calling
    convention; when they have it, the call is made with the first four
    values if ctypes can pass each surplus value without a declared
    type, and [ArgumentError] is raised and nothing sent if it cannot.
    The program is the same after each of these. *)
Theorem update_uniform_vec4_count p w (uniform_name : str)
    (u : ShaderUniform) (data : list GLfloat) :
  _uniforms p !! uniform_name = Some u ->
  function u = _uvec4 ->
  length data <> 4%nat ->
  match data with
  | v0 :: v1 :: v2 :: v3 :: surplus =>
      if cdecl drv then
        if forallb (passes_untyped drv) surplus
        then update_uniform zero drv uniform_name data (p, w)
             = ((p, {| gl_calls :=
                         gl_calls w ++ [glUniform4f (uid u) v0 v1 v2 v3];
                       stdout := stdout w |}), Ok tt)
        else update_uniform zero drv uniform_name data (p, w)
             = ((p, w), Raise ArgumentError)
      else exists msg,
          update_uniform zero drv uniform_name data (p, w)
          = ((p, w), Raise (TypeError msg))
  | _ => exists msg,
      update_uniform zero drv uniform_name data (p, w)
      = ((p, w), Raise (TypeError msg))
  end.
Proof.
  intros Hu Hf Hlen. run_program_method. rewrite Hu, Hf.
  destruct data as [|v0 [|v1 [|v2 [|v3 [|v4 data]]]]];
    try (by eexists); [done|].
  destruct (cdecl drv); [|by eexists].
  by destruct (forallb (passes_untyped drv) (v4 :: data)).
Qed.

(** A shader is attached by its handle: a freshly constructed shader
    cannot be attached, the attempt raises [NameError] and calls nothing;
    once it is compiled with a handle other than zero, [attach] makes the
    one call [glAttachShader] with the id of the program and that
    handle. *)
Theorem attach_needs_compiled_shader p w (shader_source shader_kind : str)
    (version : str) (preprocess : bool) sh sh' (w0 w0' : world)
    (handle : Z) :
  Shader_init shader_source shader_kind version preprocess = Ok sh ->
  compile drv (sh, w0) = ((sh', w0'), Ok tt) ->
  _id sh' = Some handle ->
  handle <> 0%Z ->
  attach drv sh (p, w)
  = ((p, w), Raise (NameError (py "Shader hasn't been created yet.")))
  /\ attach drv sh' (p, w)
     = ((p, {| gl_calls := gl_calls w ++ [glAttachShader (pid p) handle];
               stdout := stdout w |}), Ok tt).
Proof.
  intros Hinit Hcompile Hid Hnz. split.
  - run_program_method. unfold sid.
    by rewrite (Shader_init_fresh _ _ _ _ _ Hinit).
  - run_program_method. unfold sid. rewrite Hid.
    by destruct (Z.eqb_spec handle 0).
Qed.

Lemma run_program_op_frame (op : program_op) p w p' w' (r : result unit) :
  run_program_op zero drv op (p, w) = ((p', w'), r) ->
  pid p' = pid p
  /\ gl_calls w `prefix_of` gl_calls w'
  /\ stdout w' = stdout w
  /\ forall k u,
       _uniforms p' !! k = Some u ->
       _uniforms p !! k = Some u
       \/ (name u = k
           /\ exists dtype,
                op = OpAddUniform k dtype
                /\ _uniform_function_map !! dtype = Some (function u)).
Proof.
  destruct op as [uniform_name dtype | uniform_name data | shader | | |];
    cbn [run_program_op]; run_program_method.
  - destruct (_uniform_function_map !! dtype) as [f|] eqn:Hf;
      [destruct (encode uniform_name) as [encoded|e]|];
      intros [= <- <- _]; try frame_same.
    cbn [pid _uniforms gl_calls stdout].
    split; [reflexivity|]. split; [by apply prefix_app_r|].
    split; [reflexivity|].
    intros k u Hk. destruct (decide (uniform_name = k)) as [->|Hne].
    + rewrite lookup_insert_eq in Hk. injection Hk as <-. right.
      split; [done|]. by exists dtype.
    + rewrite lookup_insert_ne in Hk by done. by left.
  - destruct (_uniforms p !! uniform_name) as [u|];
      [destruct (function u);
       [destruct data as [|v0 [|v1 [|v2 [|v3 [|v4 data]]]]];
        [| | | | |destruct (cdecl drv);
                  [destruct (forallb (passes_untyped drv) (v4 :: data))|]]
       |destruct (16 <? length data)%nat]|];
      intros [= <- <- _]; frame_same.
  - destruct (sid shader); intros [= <- <- _]; frame_same.
  - intros [= <- <- _]. frame_same.
  - intros [= <- <- _]. frame_same.
  - intros [= <- <- _]. frame_same.
Qed.

Lemma run_program_ops_frame (ops : list program_op) p w :
  let st := run_program_ops zero drv ops (p, w) in
  pid (fst st) = pid p
  /\ gl_calls w `prefix_of` gl_calls (snd st)
  /\ stdout (snd st) = stdout w
  /\ forall k u,
       _uniforms (fst st) !! k = Some u ->
       _uniforms p !! k = Some u
       \/ (name u = k
           /\ exists dtype,
                OpAddUniform k dtype ∈ ops
                /\ _uniform_function_map !! dtype = Some (function u)).
Proof.
  revert p w. induction ops as [|op ops IH]; intros p w; cbv zeta.
  - cbn. repeat split; [done|]. intros k u Hk. by left.
  - unfold run_program_ops. cbn [fold_left].
    destruct (run_program_op zero drv op (p, w)) as [[p1 w1] r] eqn:E.
    cbn [fst]. fold (run_program_ops zero drv ops (p1, w1)).
    apply run_program_op_frame in E as (Hpid & Hcalls & Hout & Hmap).
    destruct (IH p1 w1) as (Hpid' & Hcalls' & Hout' & Hmap').
    split; [congruence|]. split; [by etrans|]. split; [congruence|].
    intros k u Hk. apply Hmap' in Hk as [Hk | (Hname & dtype & Hin & Hf)].
    + apply Hmap in Hk as [Hk | (Hname & dtype & -> & Hf)]; [by left|].
      right. split; [done|]. exists dtype. split; [by left | done].
    + right. split; [done|]. exists dtype. split; [by right | done].
Qed.

(** Whatever is called on a program after its construction, in whatever
    order and whether the calls raise or not: its id stays the one
    [glCreateProgram] answered, every binding is stored under its own
    name and has one of the known update functions, a name is bound only
    if [add_uniform] was called for it, the log of OpenGL calls only
    grows, and nothing is printed. *)
Theorem program_invariant (ops : list program_op) w :
  let st := run_program_ops zero drv ops (ShaderProgram_init drv w) in
  pid (fst st) = answer drv (gl_calls w) glCreateProgram
  /\ (gl_calls w ++ [glCreateProgram]) `prefix_of` gl_calls (snd st)
  /\ stdout (snd st) = stdout w
  /\ forall k u,
       _uniforms (fst st) !! k = Some u ->
       name u = k
       /\ exists dtype,
            OpAddUniform k dtype ∈ ops
            /\ _uniform_function_map !! dtype = Some (function u).
Proof.
  cbv zeta. unfold ShaderProgram_init.
  match goal with
  | |- context [run_program_ops zero drv ops (?p0, ?w0)] =>
      destruct (run_program_ops_frame ops p0 w0)
        as (Hpid & Hcalls & Hout & Hmap)
  end.
  split; [exact Hpid|]. split; [exact Hcalls|]. split; [exact Hout|].
  intros k u Hk. apply Hmap in Hk as [Hk|Hk]; [|exact Hk].
  cbn [_uniforms] in Hk. by rewrite lookup_empty in Hk.
Qed.

End ProgramMore.

Lemma preprocess_shader_raises_iff_witness :
  preprocess_shader (py "void main(){}") (py "compute") (py "4.3")
  = Raise (TypeError (py "Cannot preprocess compute shader.")).
Proof.
  apply preprocess_shader_raises_iff. right. exists 430%Z.
  repeat split; try discriminate; try (vm_compute; reflexivity).
Defined.

Lemma add_uniform_registers_witness :
  exists p',
    _uniforms p' !! py "transform"
    = Some {| name := py "transform"; uid := 3%Z; function := _umat4 |}
    /\ _uniforms p' !! py "fill_color"
       = _uniforms (fst example_program) !! py "fill_color".
Proof.
  destruct (add_uniform_registers counting_driver (fst example_program)
              (snd example_program) (py "transform") (py "mat4") _umat4
              (py "transform"))
    as (p' & _ & _ & Hnew & Hother).
  - vm_compute. reflexivity.
  - vm_compute. reflexivity.
  - exists p'. split; [exact Hnew | apply Hother; discriminate].
Defined.

Lemma add_uniform_overwrites_witness :
  _uniforms
    (fst (fst (add_uniform counting_driver (py "fill_color") (py "mat4")
                 (fst (add_uniform counting_driver (py "fill_color")
                         (py "vec4")
                         (ShaderProgram_init (GLfloat := Q) counting_driver
                                             empty_world))))))
  = <[py "fill_color" :=
        {| name := py "fill_color"; uid := 3%Z; function := _umat4 |}]> ∅.
Proof.
  exact (add_uniform_overwrites counting_driver
           (fst (ShaderProgram_init (GLfloat := Q) counting_driver
                                    empty_world))
           (snd (ShaderProgram_init (GLfloat := Q) counting_driver
                                    empty_world))
           (py "fill_color") (py "vec4") (py "mat4") _uvec4 _umat4
           (py "fill_color") eq_refl eq_refl eq_refl).
Defined.

Lemma update_uniform_mat4_witness :
  exists value,
    update_uniform 0%Q counting_driver (py "fill_color") [1%Q; (1 # 2)%Q]
      (fst (add_uniform counting_driver (py "fill_color") (py "mat4")
              (ShaderProgram_init (GLfloat := Q) counting_driver
                                  empty_world)))
    = ((fst (fst (add_uniform counting_driver (py "fill_color") (py "mat4")
                    (ShaderProgram_init (GLfloat := Q) counting_driver
                                  empty_world))),
        {| gl_calls :=
             [glCreateProgram; glGetUniformLocation 1 (py "fill_color");
              glUniformMatrix4fv 2 1 GL_FALSE value];
           stdout := [] |}), Ok tt)
    /\ length value = 16%nat
    /\ take 2 value = [1%Q; (1 # 2)%Q]
    /\ drop 2 value = replicate 14 0%Q.
Proof.
  exact (update_uniform_mat4 0%Q counting_driver
           (fst (fst (add_uniform counting_driver (py "fill_color")
                        (py "mat4")
                        (ShaderProgram_init (GLfloat := Q) counting_driver
                                  empty_world))))
           (snd (fst (add_uniform counting_driver (py "fill_color")
                        (py "mat4")
                        (ShaderProgram_init (GLfloat := Q) counting_driver
                                  empty_world))))
           (py "fill_color")
           {| name := py "fill_color"; uid := 2%Z; function := _umat4 |}
           [1%Q; (1 # 2)%Q] eq_refl eq_refl).
Defined.

Lemma update_uniform_vec4_count_witness :
  (exists msg,
     update_uniform 0%Q counting_driver (py "fill_color")
                    [1%Q; 0%Q; 0%Q] example_program
     = (example_program, Raise (TypeError msg)))
  /\ update_uniform 0%Q counting_driver (py "fill_color")
                    [1%Q; 0%Q; 0%Q; 1%Q; 1%Q] example_program
     = (example_program, Raise ArgumentError)
  /\ (exists msg,
        update_uniform 0%Q stdcall_driver (py "fill_color")
                       [1%Q; 0%Q; 0%Q; 1%Q; 1%Q] example_program
        = (example_program, Raise (TypeError msg)))
  /\ snd (update_uniform 0%Z integer_driver (py "fill_color")
            [1; 0; 0; 1; 1]%Z
            (fst (add_uniform integer_driver (py "fill_color") (py "vec4")
                    (ShaderProgram_init integer_driver empty_world))))
     = Ok tt.
Proof.
  split; [|split; [|split]].
  - apply (update_uniform_vec4_count 0%Q counting_driver
             (fst example_program) (snd example_program) (py "fill_color")
             {| name := py "fill_color"; uid := 2%Z; function := _uvec4 |}
             [1%Q; 0%Q; 0%Q]).
    + vm_compute. reflexivity.
    + reflexivity.
    + discriminate.
  - apply (update_uniform_vec4_count 0%Q counting_driver
             (fst example_program) (snd example_program) (py "fill_color")
             {| name := py "fill_color"; uid := 2%Z; function := _uvec4 |}
             [1%Q; 0%Q; 0%Q; 1%Q; 1%Q]).
    + vm_compute. reflexivity.
    + reflexivity.
    + discriminate.
  - apply (update_uniform_vec4_count 0%Q stdcall_driver
             (fst example_program) (snd example_program) (py "fill_color")
             {| name := py "fill_color"; uid := 2%Z; function := _uvec4 |}
             [1%Q; 0%Q; 0%Q; 1%Q; 1%Q]).
    + vm_compute. reflexivity.
    + reflexivity.
    + discriminate.
  - vm_compute. reflexivity.
Defined.

Lemma attach_needs_compiled_shader_witness :
  attach (GLfloat := Q) counting_driver example_shader example_program
  = (example_program,
     Raise (NameError (py "Shader hasn't been created yet.")))
  /\ attach counting_driver
       (fst (fst (compile (GLfloat := Q) counting_driver
                    (example_shader, empty_world))))
       example_program
     = ((fst example_program,
         {| gl_calls := gl_calls (snd example_program)
                        ++ [glAttachShader (GLfloat := Q) 1 1];
            stdout := [] |}), Ok tt).
Proof.
  apply (attach_needs_compiled_shader counting_driver
           (fst example_program) (snd example_program)
           (py "void main(){}") (py "vertex") (py "2.0") true
           example_shader
           (fst (fst (compile (GLfloat := Q) counting_driver
                        (example_shader, empty_world))))
           empty_world
           (snd (fst (compile (GLfloat := Q) counting_driver
                        (example_shader, empty_world))))
           1%Z).
  - vm_compute. reflexivity.
  - vm_compute. reflexivity.
  - vm_compute. reflexivity.
  - discriminate.
Defined.

Lemma program_invariant_witness :
  pid (fst (run_program_ops 0%Q counting_driver
              [OpAddUniform (py "fill_color") (py "vec4");
               OpUpdateUniform (py "missing") []; OpLink; OpActivate;
               OpAddUniform (py "normal") (py "vec3"); OpDeactivate]
              (ShaderProgram_init (GLfloat := Q) counting_driver
                                  empty_world)))
  = 1%Z
  /\ stdout (snd (run_program_ops 0%Q counting_driver
                    [OpAddUniform (py "fill_color") (py "vec4");
                     OpUpdateUniform (py "missing") []; OpLink; OpActivate;
                     OpAddUniform (py "normal") (py "vec3"); OpDeactivate]
                    (ShaderProgram_init (GLfloat := Q) counting_driver
                                        empty_world)))
     = [].
Proof.
  destruct (program_invariant 0%Q counting_driver
              [OpAddUniform (py "fill_color") (py "vec4");
               OpUpdateUniform (py "missing") []; OpLink; OpActivate;
               OpAddUniform (py "normal") (py "vec3"); OpDeactivate]
              empty_world) as (Hpid & _ & Hout & _).
  split; [exact Hpid | exact Hout].
Defined.

(** * Encoding and decoding *)

Section Utf8.

#[local] Ltac Zify.zify_post_hook ::= Z.to_euclidean_division_equations.



End Utf8.

